(** * gamebot-service: the session and scoring model of [app.py]

    A shallow embedding of [src/app.py] and the properties of its session
    life cycle, game log, scoring functions and persistence.

    Modelling conventions.
    - The program is read as Python 3: [/] on two ints is true division
      and [filter] builds a lazy iterator.
    - Python [str] is [string]; the order on [str] is the lexicographic
      order on the characters.  The texts of the forms are taken to be
      ASCII, which matters to [lower], [strip] and [split] only.  Python
      [int] is [Z].
    - A Python [dict] with [str] keys is an association list in insertion
      order without repeated keys: iteration order is observable in
      [pretty_print], whose sort is stable.
    - [app.history] is a record of two lists of rows.  The rows are the
      dicts built by [Record.json] and [Session.json]; they are given the
      fixed shape those two methods produce.  A persisted file is assumed
      to have been written by [save_history].
    - [app.state], [app.history], the file system and the two ambient
      sources of values ([time.asctime] and [uuid.uuid4]) form the
      [World] that every handler transforms.  A handler either returns or
      raises, and in both cases leaves a world behind.
    - [json.dump] and [json.load] are modelled on JSON values: a file
      holds the JSON value that was dumped into it. *)

From Stdlib Require Import List String Ascii ZArith Bool Lia.
From Stdlib Require Import Sorted Permutation OrdersEx DecimalString.
From Stdlib Require Import QArith.
Import ListNotations.

Open Scope string_scope.
Open Scope Z_scope.

(* ------------------------------------------------------------------ *)
(** * Python values used by the program                                 *)
(* ------------------------------------------------------------------ *)

(** ** Exceptions and outcomes *)

Inductive exn : Type :=
| IndexError          (* list index out of range *)
| ZeroDivisionError   (* division by zero *)
| KeyError            (* a key that a dict does not have *)
| TypeError           (* [dict.update( **x )] on something that is no mapping *)
| ShapeError.         (* a loaded document that [save_history] cannot have
                         written; the typed rows cannot hold it *)

Inductive outcome (A : Type) : Type :=
| Returned (a : A)
| Raised (e : exn).
Arguments Returned {A} a.
Arguments Raised {A} e.

Definition obind {A B} (o : outcome A) (k : A -> outcome B) : outcome B :=
  match o with
  | Returned a => k a
  | Raised e => Raised e
  end.

(** ** Strings *)

(** [a < b] on [str]. *)
Definition str_lt (a b : string) : bool :=
  match String_as_OT.compare a b with Lt => true | _ => false end.

(** [str(n)] for an int. *)
Definition str_of_int (n : Z) : string :=
  NilZero.string_of_int (Z.to_int n).

(** The form texts are read as ASCII: on a text of ASCII characters
    [lower], [strip] and [split] below are [str.lower], [str.strip] and
    [str.split].  Python also lowers letters and strips and splits at
    white space outside ASCII (U+0085, U+00A0, U+2000 and others); a
    property that depends on how a text is read is stated for ASCII
    texts. *)
Definition is_ascii (c : ascii) : bool := Nat.ltb (nat_of_ascii c) 128.

Fixpoint ascii_text (s : string) : bool :=
  match s with
  | EmptyString => true
  | String c s' => (is_ascii c && ascii_text s')%bool
  end.

(** The characters [str.split] and [str.strip] treat as white space,
    among the ASCII ones. *)
Definition is_space (c : ascii) : bool :=
  let n := nat_of_ascii c in
  (Nat.eqb n 32 || (Nat.leb 9 n && Nat.leb n 13)
   || (Nat.leb 28 n && Nat.leb n 31))%bool.

(** [c.lower()] on an ASCII character. *)
Definition lower_char (c : ascii) : ascii :=
  let n := nat_of_ascii c in
  if (Nat.leb 65 n && Nat.leb n 90)%bool then ascii_of_nat (n + 32) else c.

(** [s.lower()]. *)
Fixpoint lower (s : string) : string :=
  match s with
  | EmptyString => EmptyString
  | String c s' => String (lower_char c) (lower s')
  end.

Fixpoint lstrip (s : string) : string :=
  match s with
  | EmptyString => EmptyString
  | String c s' => if is_space c then lstrip s' else s
  end.

(** [rstrip] keeps a character when it is no space or something is kept
    after it. *)
Fixpoint rstrip (s : string) : string :=
  match s with
  | EmptyString => EmptyString
  | String c s' =>
      match rstrip s' with
      | EmptyString => if is_space c then EmptyString else String c EmptyString
      | r => String c r
      end
  end.

(** [s.strip()]. *)
Definition strip (s : string) : string := rstrip (lstrip s).

(** [split_from cur s]: the words of [s], where [cur] holds the
    characters of the word being read, last one first. *)
Fixpoint split_from (cur : list ascii) (s : string) : list string :=
  let flush (rest : list string) :=
    match cur with
    | [] => rest
    | _ => string_of_list_ascii (rev cur) :: rest
    end in
  match s with
  | EmptyString => flush []
  | String c s' =>
      if is_space c then flush (split_from [] s')
      else split_from (c :: cur) s'
  end.

(** [s.split()]: the maximal runs of characters that are no white space. *)
Definition split (s : string) : list string := split_from [] s.

(** [sep.join(l)]. *)
Definition join (sep : string) (l : list string) : string := String.concat sep l.

(** ** Lists *)

(** [l[0]] *)
Definition first {A} (l : list A) : outcome A :=
  match l with
  | [] => Raised IndexError
  | x :: _ => Returned x
  end.

(** [l[-1]] *)
Fixpoint last_item {A} (l : list A) : outcome A :=
  match l with
  | [] => Raised IndexError
  | [x] => Returned x
  | _ :: l' => last_item l'
  end.

(** [sorted]: a stable sort.  [before y x = true] says that [y] goes
    strictly before [x]; elements that are not ordered by [before] keep
    the order they have in the input. *)
Section Sorted.
Context {A : Type} (before : A -> A -> bool).

Fixpoint insert_sorted (x : A) (l : list A) : list A :=
  match l with
  | [] => [x]
  | y :: l' => if before y x then y :: insert_sorted x l' else x :: l
  end.

Definition sorted (l : list A) : list A :=
  fold_right insert_sorted [] l.
End Sorted.

(** [x] may stand before [y] in the output of [sorted before]: [y] does
    not go strictly before [x]. *)
Definition not_after {A} (before : A -> A -> bool) (x y : A) : Prop :=
  before y x = false.

(** [enumerate(l, start)] *)
Fixpoint enumerate {A} (l : list A) (start : Z) : list (Z * A) :=
  match l with
  | [] => []
  | x :: l' => (start, x) :: enumerate l' (start + 1)
  end.

(** ** Dicts with [str] keys *)

Definition dict (V : Type) : Type := list (string * V).

(** [d.get(k)] *)
Fixpoint dict_get {V} (d : dict V) (k : string) : option V :=
  match d with
  | [] => None
  | (k', v) :: d' => if String.eqb k k' then Some v else dict_get d' k
  end.

(** [k in d] *)
Definition dict_mem {V} (d : dict V) (k : string) : bool :=
  match dict_get d k with Some _ => true | None => false end.

(** [d[k] = v]: an existing key keeps its place, a new key goes last. *)
Fixpoint dict_set {V} (d : dict V) (k : string) (v : V) : dict V :=
  match d with
  | [] => [(k, v)]
  | (k', v') :: d' =>
      if String.eqb k k' then (k', v) :: d' else (k', v') :: dict_set d' k v
  end.

(** The keys, in iteration order. *)
Definition dict_keys {V} (d : dict V) : list string := map fst d.

(** The idiom [if k not in d: d[k] = 0] followed by [d[k] += n]. *)
Definition dict_add (d : dict Z) (k : string) (n : Z) : dict Z :=
  let d1 := if dict_mem d k then d else dict_set d k 0 in
  match dict_get d1 k with
  | Some v => dict_set d1 k (v + n)
  | None => d1   (* unreachable: [k] is a key of [d1] *)
  end.

(** ** JSON values *)

#[warnings="-register-all"] Inductive json : Type :=
| JNull
| JInt (n : Z)
| JStr (s : string)
| JList (l : list json)
| JDict (kvs : list (string * json)).

(** The value of key [k] in the dict that [json.load] builds from an
    object: when a key is repeated the last occurrence is kept. *)
Fixpoint jget (kvs : list (string * json)) (k : string) : option json :=
  match kvs with
  | [] => None
  | (k', v) :: kvs' =>
      match jget kvs' k with
      | Some v' => Some v'
      | None => if String.eqb k k' then Some v else None
      end
  end.

(** [map] with a partial function; [None] as soon as one element fails. *)
Fixpoint map_opt {A B} (f : A -> option B) (l : list A) : option (list B) :=
  match l with
  | [] => Some []
  | x :: l' =>
      match f x, map_opt f l' with
      | Some y, Some ys => Some (y :: ys)
      | _, _ => None
      end
  end.

(* ------------------------------------------------------------------ *)
(** * Data model                                                        *)
(* ------------------------------------------------------------------ *)

(** A row of [app.history['games']]: the dict built by [Record.json]. *)
Module GameRow.
Record t : Type := Make {
  timestamp : string;
  scoreboard : list string;
  session_id : option string
}.

(** The row as a JSON value, and back. *)
Definition dump (r : t) : json :=
  JDict [("timestamp", JStr (timestamp r));
         ("scoreboard", JList (map JStr (scoreboard r)));
         ("session_id",
          match session_id r with Some s => JStr s | None => JNull end)].

Definition load (j : json) : option t :=
  match j with
  | JDict kvs =>
      match jget kvs "timestamp", jget kvs "scoreboard", jget kvs "session_id" with
      | Some (JStr ts), Some (JList names), Some sid =>
          match map_opt (fun n => match n with JStr s => Some s | _ => None end) names,
                match sid with
                | JNull => Some None
                | JStr s => Some (Some s)
                | _ => None
                end
          with
          | Some sb, Some osid => Some (Make ts sb osid)
          | _, _ => None
          end
      | _, _, _ => None
      end
  | _ => None
  end.
End GameRow.

(** class [Record] *)
Module GameRecord.
Record t : Type := Make {
  timestamp : string;
  scoreboard : list string;
  session_id : option string
}.

(** [Record.json] *)
Definition json (self : t) : GameRow.t :=
  GameRow.Make (timestamp self) (scoreboard self) (session_id self).
End GameRecord.

(** A row of [app.history['sessions']]: the dict built by [Session.json]. *)
Module SessionRow.
Record t : Type := Make {
  session_id : string;
  start_time : string;
  end_time : option string;
  game_count : Z
}.

Definition dump (r : t) : json :=
  JDict [("session_id", JStr (session_id r));
         ("start_time", JStr (start_time r));
         ("end_time",
          match end_time r with Some s => JStr s | None => JNull end);
         ("game_count", JInt (game_count r))].

Definition load (j : json) : option t :=
  match j with
  | JDict kvs =>
      match jget kvs "session_id", jget kvs "start_time",
            jget kvs "end_time", jget kvs "game_count" with
      | Some (JStr sid), Some (JStr st), Some et, Some (JInt n) =>
          match et with
          | JNull => Some (Make sid st None n)
          | JStr e => Some (Make sid st (Some e) n)
          | _ => None
          end
      | _, _, _, _ => None
      end
  | _ => None
  end.
End SessionRow.

(** class [Session]; the object is mutable and lives in [app.state]. *)
Module Session.
Record t : Type := Make {
  start_time : string;
  session_id : string;
  end_time : option string;
  game_count : Z
}.

(** [Session.json] *)
Definition json (self : t) : SessionRow.t :=
  SessionRow.Make (session_id self) (start_time self)
                  (end_time self) (game_count self).

Definition set_end_time (self : t) (v : option string) : t :=
  Make (start_time self) (session_id self) v (game_count self).

Definition set_game_count (self : t) (v : Z) : t :=
  Make (start_time self) (session_id self) (end_time self) v.
End Session.

(** [app.history] *)
Record History : Type := MkHistory {
  games : list GameRow.t;
  sessions : list SessionRow.t
}.

(** The initial value of [app.history] (lines 57-60). *)
Definition empty_history : History := MkHistory [] [].

(** [app.history] as the JSON value that [json.dump] writes. *)
Definition history_dump (h : History) : json :=
  JDict [("games", JList (map GameRow.dump (games h)));
         ("sessions", JList (map SessionRow.dump (sessions h)))].

Definition DB_FILENAME : string := "game_history.json".

(** The state every handler works on. *)
Record World : Type := MkWorld {
  history : History;                 (* app.history *)
  state_session : option Session.t;  (* app.state['session'] *)
  files : string -> option json;     (* the files, by name *)
  clock : nat;                       (* calls made to time.asctime *)
  uuids : nat                        (* calls made to uuid.uuid4 *)
}.

(** Writing a file. *)
Definition write_file (fs : string -> option json) (name : string) (j : json)
  : string -> option json :=
  fun n => if String.eqb n name then Some j else fs n.

(** ** The monad of handlers: state that survives an exception *)

Definition M (A : Type) : Type := World -> outcome A * World.

Definition ret {A} (a : A) : M A := fun w => (Returned a, w).

Definition raise {A} (e : exn) : M A := fun w => (Raised e, w).

Definition bind {A B} (m : M A) (k : A -> M B) : M B :=
  fun w =>
    match m w with
    | (Returned a, w') => k a w'
    | (Raised e, w') => (Raised e, w')
    end.

Definition lift {A} (o : outcome A) : M A := fun w => (o, w).

Declare Scope py_scope.
Delimit Scope py_scope with py.
Notation "x <- m ;; k" := (bind m (fun x => k))
  (at level 61, m at next level, right associativity) : py_scope.
Notation "m ;; k" := (bind m (fun _ => k))
  (at level 61, right associativity) : py_scope.
Open Scope py_scope.

Definition get_world : M World := fun w => (Returned w, w).

Definition set_history (h : History) : M unit :=
  fun w => (Returned tt,
            MkWorld h (state_session w) (files w) (clock w) (uuids w)).

Definition set_session (s : option Session.t) : M unit :=
  fun w => (Returned tt, MkWorld (history w) s (files w) (clock w) (uuids w)).

Definition set_files (fs : string -> option json) : M unit :=
  fun w => (Returned tt,
            MkWorld (history w) (state_session w) fs (clock w) (uuids w)).

(** [filter] with a predicate that runs in [M]. *)
Fixpoint filterM {A} (p : A -> M bool) (l : list A) : M (list A) :=
  match l with
  | [] => ret []
  | x :: l' =>
      b <- p x ;;
      rest <- filterM p l' ;;
      ret (if b then x :: rest else rest)
  end.

(* ------------------------------------------------------------------ *)
(** * The program                                                       *)
(* ------------------------------------------------------------------ *)

(** [a < b] on the tuples [(int, str)] that [get_winner] sorts. *)
Definition tuple_lt (a b : Z * string) : bool :=
  ((fst a <? fst b) || ((fst a =? fst b) && str_lt (snd a) (snd b)))%bool.

(** The two tallies [summarize] returns. *)
Record Stats : Type := MkStats {
  player_points : dict Z;
  player_games : dict Z
}.

(** The body of a response: the argument of [jsonify]. *)
Record Response : Type := MkResponse {
  text : string;
  response_type : string
}.

(** The line feed character. *)
Definition nl : string := String (ascii_of_nat 10) EmptyString.

(** [get_wins] (lines 122-130); the loop, from the tally so far. *)
Fixpoint get_wins_from (wins : dict Z) (games : list GameRow.t)
  : outcome (dict Z) :=
  match games with
  | [] => Returned wins
  | result :: rest =>
      obind (first (GameRow.scoreboard result)) (fun winner =>
      get_wins_from (dict_add wins winner 1) rest)
  end.

Definition get_wins (games : list GameRow.t) : outcome (dict Z) :=
  get_wins_from [] games.

(** [get_winner] (lines 133-135) *)
Definition get_winner (games : list GameRow.t) : outcome string :=
  obind (get_wins games) (fun wins =>
  let sorted_results := sorted tuple_lt (map (fun kv => (snd kv, fst kv)) wins) in
  obind (last_item sorted_results) (fun top =>
  Returned (snd top))).

(** [summarize] (lines 138-159); the inner loop over one scoreboard.
    [total_games] is counted by the source and never read. *)
Definition summarize_scoreboard (stats : Stats) (scoreboard : list string)
  : Stats :=
  let num_players := Z.of_nat (List.length scoreboard) in
  fold_left
    (fun st (item : Z * string) =>
       let (n, name) := item in
       MkStats (dict_add (player_points st) name (num_players - n))
               (dict_add (player_games st) name 1))
    (enumerate scoreboard 1) stats.

Definition summarize (games : list GameRow.t) : Stats :=
  fold_left (fun st result => summarize_scoreboard st (GameRow.scoreboard result))
            games (MkStats [] []).

Section App.

(** The value returned by the [n]-th call of [time.asctime] and of
    [str(uuid.uuid4())], counting from 0. *)
Variable asctime : nat -> string.
Variable uuid4 : nat -> string.

(** Python floats.  [int_truediv a b] is [a / b] for two ints and
    [float_truediv x b] is [x / b] for a float and an int, [b] not zero in
    both; [float_lt] is [<]; [format_3f] is the format [{:0.3f}];
    [dict_repr] is the text [format] gives for a dict of ints.  The two
    divisions are total: ints are taken to be in the range of floats, where
    Python raises nothing but [ZeroDivisionError]; past that range it
    raises [OverflowError], which is not modelled. *)
Variable pyfloat : Type.
Variable int_truediv : Z -> Z -> pyfloat.
Variable float_truediv : pyfloat -> Z -> pyfloat.
Variable float_zero : pyfloat.
Variable float_lt : pyfloat -> pyfloat -> bool.
Variable format_3f : pyfloat -> string.
Variable dict_repr : dict Z -> string.

Definition time_asctime : M string :=
  fun w => (Returned (asctime (clock w)),
            MkWorld (history w) (state_session w) (files w)
                    (S (clock w)) (uuids w)).

Definition uuid_uuid4 : M string :=
  fun w => (Returned (uuid4 (uuids w)),
            MkWorld (history w) (state_session w) (files w)
                    (clock w) (S (uuids w))).

(** [Session.__init__] (lines 38-43) *)
Definition Session_init : M Session.t :=
  start_time <- time_asctime ;;
  session_id <- uuid_uuid4 ;;
  ret (Session.Make start_time session_id None 0).

(** [this_session] (lines 72-77) *)
Definition this_session : M Session.t :=
  w <- get_world ;;
  match state_session w with
  | None =>
      s <- Session_init ;;
      set_session (Some s) ;;
      ret s
  | Some s => ret s
  end.

(** [this_session().method(...)]: the method runs on the object that
    [app.state['session']] refers to, so what it changes is seen there. *)
Definition on_this_session {A} (method : Session.t -> M (A * Session.t)) : M A :=
  self <- this_session ;;
  r <- method self ;;
  set_session (Some (snd r)) ;;
  ret (fst r).

(** [Session.end] (lines 45-47) *)
Definition Session_end (self : Session.t) : M (SessionRow.t * Session.t) :=
  now <- time_asctime ;;
  let self' := Session.set_end_time self (Some now) in
  ret (Session.json self', self').

(** [this_sessions_games] (lines 80-82).  The source builds a lazy
    [filter]; both callers consume it at once, and the predicate's only
    effect, opening a session when none is open, takes place at the first
    row whether the rows are tested one by one on demand or all at once. *)
Definition this_sessions_games : M (list GameRow.t) :=
  w <- get_world ;;
  filterM (fun row =>
             s <- this_session ;;
             ret (match GameRow.session_id row with
                  | Some sid => String.eqb sid (Session.session_id s)
                  | None => false
                  end))
          (games (history w)).

(** [save_history] (lines 85-87).  Opening and writing the file are
    taken to succeed. *)
Definition save_history (h : History) (filename : string) : M unit :=
  w <- get_world ;;
  set_files (write_file (files w) filename (history_dump h)).

(** [start_session] (lines 90-98) *)
Definition start_session : M string :=
  s <- this_session ;;
  ret ("Session started at " ++ Session.start_time s).

(** [format] of a value that is a [str] or [None]. *)
Definition format_opt (o : option string) : string :=
  match o with Some s => s | None => "None" end.

(** [end_session] (lines 101-119) *)
Definition end_session : M string :=
  row <- on_this_session Session_end ;;
  w <- get_world ;;
  set_history (MkHistory (games (history w)) (sessions (history w) ++ [row])) ;;
  w <- get_world ;;
  save_history (history w) DB_FILENAME ;;
  games <- this_sessions_games ;;
  winner <- lift (get_winner games) ;;
  s1 <- this_session ;;
  s2 <- this_session ;;
  let msg := "Session ended at " ++ format_opt (Session.end_time s1)
             ++ " after " ++ str_of_int (Session.game_count s2)
             ++ " games. Winner is " ++ winner ++ "!" in
  set_session None ;;
  ret msg.

(** The list [points_per_game] of [pretty_print] (lines 164-168): the
    loop, then the sort. *)
Fixpoint points_per_game_loop (stats : Stats) (names : list string)
  : outcome (list (string * pyfloat)) :=
  match names with
  | [] => Returned []
  | name :: rest =>
      match dict_get (player_games stats) name with
      | None => Raised KeyError
      | Some g =>
          if g =? 0 then Raised ZeroDivisionError
          else
            let avg := match dict_get (player_points stats) name with
                       | Some p => int_truediv p g
                       | None => float_truediv float_zero g
                       end in
            obind (points_per_game_loop stats rest) (fun tl =>
            Returned ((name, avg) :: tl))
      end
  end.

Definition points_per_game (stats : Stats) : outcome (list (string * pyfloat)) :=
  obind (points_per_game_loop stats (dict_keys (player_games stats))) (fun l =>
  Returned (sorted (fun y x => float_lt (snd x) (snd y)) l)).

(** [pretty_print] (lines 162-170) *)
Definition pretty_print (stats : Stats) : outcome string :=
  obind (points_per_game stats) (fun l =>
  Returned (join nl (map (fun x => fst x ++ ": " ++ format_3f (snd x)) l))).

(** [jsonify] of the dict with the two keys the handlers send. *)
Definition jsonify (msg : string) : Response := MkResponse msg "in_channel".

(** [manage_session] (lines 173-191), from the text of the form onward. *)
Definition manage_session (form_text : string) : M Response :=
  let command := strip (lower form_text) in
  msg <- (if String.eqb command "start" then start_session
          else if String.eqb command "end" then end_session
          else ret "Try again! `/session` only accepts 'start' and 'end'") ;;
  w <- get_world ;;
  save_history (history w) DB_FILENAME ;;
  ret (jsonify msg).

(** [log_result] (lines 194-224), from the text of the form onward. *)
Definition log_result (form_text : string) : M Response :=
  let scoreboard := split form_text in
  s <- this_session ;;
  timestamp <- time_asctime ;;
  let record := GameRecord.Make timestamp scoreboard (Some (Session.session_id s)) in
  on_this_session (fun self =>
    ret (tt, Session.set_game_count self (Session.game_count self + 1))) ;;
  w <- get_world ;;
  set_history (MkHistory (games (history w) ++ [GameRecord.json record])
                         (sessions (history w))) ;;
  w <- get_world ;;
  save_history (history w) DB_FILENAME ;;
  winner <- lift (first scoreboard) ;;
  let losers := join " and " (tl scoreboard) in
  session_games <- this_sessions_games ;;
  wins <- lift (get_wins session_games) ;;
  w <- get_world ;;
  points <- lift (pretty_print (summarize (games (history w)))) ;;
  let stat_str := nl ++ "    *Session wins:* " ++ dict_repr wins ++ nl ++ nl
                  ++ "    *All Time Points:*" ++ nl ++ "    " ++ points
                  ++ nl ++ "    " in
  ret (jsonify ("Got it! " ++ winner ++ " beat " ++ losers ++ nl ++ stat_str)).

(** The load at start-up (lines 67-69): [app.history.update] with the
    document read from [filename], when that file exists.  The document is
    read as one that [save_history] wrote: the two lists of rows.  On any
    other object the source keeps whatever the document holds, which the
    typed rows cannot; such a document ends the load here with
    [ShapeError], and keys other than the two lists are not kept. *)
Definition history_update (h : History) (doc : json) : outcome History :=
  match doc with
  | JDict kvs =>
      obind (match jget kvs "games" with
             | None => Returned (games h)
             | Some (JList rows) =>
                 match map_opt GameRow.load rows with
                 | Some l => Returned l
                 | None => Raised ShapeError
                 end
             | Some _ => Raised ShapeError
             end) (fun gs =>
      obind (match jget kvs "sessions" with
             | None => Returned (sessions h)
             | Some (JList rows) =>
                 match map_opt SessionRow.load rows with
                 | Some l => Returned l
                 | None => Raised ShapeError
                 end
             | Some _ => Raised ShapeError
             end) (fun ss =>
      Returned (MkHistory gs ss)))
  | _ => Raised TypeError
  end.

Definition load_history (fs : string -> option json) (filename : string)
    (h : History) : outcome History :=
  match fs filename with
  | None => Returned h
  | Some doc => history_update h doc
  end.

(* ------------------------------------------------------------------ *)
(** * Notions used to state the properties                              *)
(* ------------------------------------------------------------------ *)

(** The rows of [gs] recorded under session [sid], in order. *)
Definition session_games (sid : string) (gs : list GameRow.t) : list GameRow.t :=
  filter (fun row => match GameRow.session_id row with
                     | Some x => String.eqb x sid
                     | None => false
                     end) gs.

(** [a <= b] on the tuples that [get_winner] sorts. *)
Definition tuple_le (a b : Z * string) : Prop := tuple_lt b a = false.

(** The [(win_count, player_name)] pairs of a tally. *)
Definition win_pairs (wins : dict Z) : list (Z * string) :=
  map (fun kv => (snd kv, fst kv)) wins.

(** The points one scoreboard gives to [name]: [N - n] for every rank
    [n], counted from [start], at which [name] stands. *)
Fixpoint rank_points (name : string) (N : Z) (start : Z) (sb : list string) : Z :=
  match sb with
  | [] => 0
  | x :: sb' =>
      (if String.eqb x name then N - start else 0)
      + rank_points name N (start + 1) sb'
  end.

Definition game_points (name : string) (sb : list string) : Z :=
  rank_points name (Z.of_nat (List.length sb)) 1 sb.

(** The number of times [name] stands on a scoreboard. *)
Definition appearances (name : string) (sb : list string) : Z :=
  Z.of_nat (count_occ string_dec sb name).

Definition total_points (name : string) (gs : list GameRow.t) : Z :=
  fold_right (fun g acc => game_points name (GameRow.scoreboard g) + acc) 0 gs.

Definition total_appearances (name : string) (gs : list GameRow.t) : Z :=
  fold_right (fun g acc => appearances name (GameRow.scoreboard g) + acc) 0 gs.

(** [name] played in one game of [gs] at least. *)
Definition played (name : string) (gs : list GameRow.t) : Prop :=
  exists g, In g gs /\ In name (GameRow.scoreboard g).

(** [log_result] on each text of a list, in turn; an exception raised
    by one call ends that call only. *)
Fixpoint log_results (texts : list string) (w : World) : World :=
  match texts with
  | [] => w
  | t :: rest => log_results rest (snd (log_result t w))
  end.

(** ** A concrete setting *)

Definition demo_asctime (n : nat) : string := "time-" ++ str_of_int (Z.of_nat n).
Definition demo_uuid4 (n : nat) : string := "uuid-" ++ str_of_int (Z.of_nat n).

(** Exact quotients stand for floats in the concrete setting. *)
Definition demo_int_truediv (a b : Z) : Q := Qdiv (inject_Z a) (inject_Z b).
Definition demo_float_truediv (x : Q) (b : Z) : Q := Qdiv x (inject_Z b).
Definition demo_float_lt (a b : Q) : bool :=
  match Qcompare a b with Lt => true | _ => false end.
Definition demo_format_3f (x : Q) : string :=
  str_of_int (Qnum (Qred x)) ++ "/" ++ str_of_int (Zpos (Qden (Qred x))).
Definition demo_dict_repr (d : dict Z) : string :=
  "{" ++ join ", " (map (fun kv => fst kv ++ ": " ++ str_of_int (snd kv)) d) ++ "}".

(** A game row with the given scoreboard. *)
Definition game (sb : list string) : GameRow.t := GameRow.Make "t" sb None.

(** A freshly started process with no file. *)
Definition demo_world : World :=
  MkWorld empty_history None (fun _ => None) 0 0.

(** The same process once a session has been started. *)
Definition demo_session : Session.t := Session.Make "time-0" "uuid-0" None 0.

Definition started_world : World :=
  MkWorld empty_history (Some demo_session) (fun _ => None) 1 1.

(** What [this_session] yields when no session is open. *)
Definition fresh_session (w : World) : Session.t :=
  Session.Make (asctime (clock w)) (uuid4 (uuids w)) None 0.

(** The world [end_session] leaves when it fails after closing [s]. *)
Definition closed_at (w : World) (s : Session.t) : World :=
  let s' := Session.set_end_time s (Some (asctime (clock w))) in
  let h' := MkHistory (games (history w))
                      (sessions (history w) ++ [Session.json s']) in
  MkWorld h' (Some s')
          (write_file (files w) DB_FILENAME (history_dump h'))
          (S (clock w)) (uuids w).

Ltac run_handler :=
  cbv beta iota zeta delta
    [end_session log_result on_this_session bind this_session get_world
     Session_end Session_init time_asctime uuid_uuid4 set_session set_history
     save_history set_files ret lift
     state_session history files clock uuids fst snd].

(** The world [log_result] leaves when session [s] is open: the row
    is logged, the session has one game more, the file is rewritten. *)
Definition logged (w : World) (s : Session.t) (sb : list string) : World :=
  let row := GameRow.Make (asctime (clock w)) sb (Some (Session.session_id s)) in
  let h' := MkHistory (games (history w) ++ [row]) (sessions (history w)) in
  MkWorld h' (Some (Session.set_game_count s (Session.game_count s + 1)))
          (write_file (files w) DB_FILENAME (history_dump h'))
          (S (clock w)) (uuids w).

(** The number of rows of [gs] recorded under session [sid]. *)
Definition count_session_games (sid : string) (gs : list GameRow.t) : Z :=
  Z.of_nat (List.length (session_games sid gs)).

(** The int under an optional dict entry, 0 when there is none. *)
Definition val (o : option Z) : Z :=
  match o with Some v => v | None => 0 end.

(** A dict entry after [cnt] additions that sum to [total]: untouched
    when there was none, present otherwise. *)
Definition credit (o : option Z) (cnt total : Z) : option Z :=
  if cnt =? 0 then o else Some (val o + total).


(** [g] was won by [name]: [name] is the first of its scoreboard. *)
Definition won_by (name : string) (g : GameRow.t) : bool :=
  match GameRow.scoreboard g with
  | x :: _ => String.eqb x name
  | [] => false
  end.

(** The number of games of [gs] that [name] won. *)
Definition first_places (name : string) (gs : list GameRow.t) : Z :=
  Z.of_nat (List.length (filter (won_by name) gs)).

(** A game without any name on its scoreboard. *)
Definition no_names (g : GameRow.t) : Prop := GameRow.scoreboard g = [].


(** The sum of the values of a dict. *)
Definition dict_total (d : dict Z) : Z :=
  fold_right (fun kv acc => snd kv + acc) 0 d.

(** The number of names on all the scoreboards of [gs]. *)
Definition names_logged (gs : list GameRow.t) : Z :=
  fold_right (fun g acc => Z.of_nat (List.length (GameRow.scoreboard g)) + acc)
             0 gs.

(** Twice the points all the games of [gs] give out: [N * (N - 1)] for a
    scoreboard of [N] names. *)
Definition twice_points_awarded (gs : list GameRow.t) : Z :=
  fold_right (fun g acc =>
                let N := Z.of_nat (List.length (GameRow.scoreboard g)) in
                N * (N - 1) + acc)
             0 gs.


(** The answer of [manage_session] to a command it does not know. *)
Definition try_again : string :=
  "Try again! `/session` only accepts 'start' and 'end'".

(** The message of [end_session]. *)
Definition ended_message (end_time : string) (game_count : Z) (winner : string)
  : string :=
  "Session ended at " ++ end_time ++ " after " ++ str_of_int game_count
  ++ " games. Winner is " ++ winner ++ "!".


(** The message of [log_result]. *)
Definition got_it_message (winner : string) (losers : list string)
    (wins : dict Z) (points : string) : string :=
  let stat_str := nl ++ "    *Session wins:* " ++ dict_repr wins ++ nl ++ nl
                  ++ "    *All Time Points:*" ++ nl ++ "    " ++ points
                  ++ nl ++ "    " in
  "Got it! " ++ winner ++ " beat " ++ join " and " losers ++ nl ++ stat_str.

(** The file holds the history that is in memory. *)
Definition file_up_to_date (w : World) : Prop :=
  files w DB_FILENAME = Some (history_dump (history w)).

(** Session [sid] is open and one of its rows has no name. *)
Definition spoiled (w : World) (sid : string) : Prop :=
  exists s, state_session w = Some s
            /\ Session.session_id s = sid
            /\ Exists no_names (session_games sid (games (history w))).


(** The world once [save_history] has written the history to the file. *)
Definition saved (w : World) : World :=
  MkWorld (history w) (state_session w)
          (write_file (files w) DB_FILENAME (history_dump (history w)))
          (clock w) (uuids w).

(** The rows that [log_result] appends for the texts of a list, under
    session [sid], the first one stamped by call [c] of [time.asctime]. *)
Fixpoint logged_rows (sid : string) (c : nat) (texts : list string)
  : list GameRow.t :=
  match texts with
  | [] => []
  | t :: rest =>
      GameRow.Make (asctime c) (split t) (Some sid) :: logged_rows sid (S c) rest
  end.


(** A process with a session open and one game logged in it. *)
Definition played_world : World :=
  MkWorld (MkHistory [GameRow.Make "time-1" ["A"; "B"] (Some "uuid-0")] [])
          (Some (Session.Make "time-0" "uuid-0" None 1))
          (fun _ => None) 2 1.

(** A process with a session open and a row without names logged in it. *)
Definition spoiled_world : World :=
  MkWorld (MkHistory [GameRow.Make "time-1" [] (Some "uuid-0")] [])
          (Some (Session.Make "time-0" "uuid-0" None 1))
          (fun _ => None) 2 1.

(** An int that is in the range of floats. *)
Definition fits_float (v : Z) : Prop := Z.abs v < 2 ^ 1023.

(* ------------------------------------------------------------------ *)
(** * The session life cycle                                            *)
(* ------------------------------------------------------------------ *)

Lemma this_session_open (w : World) (s : Session.t) :
  state_session w = Some s -> this_session w = (Returned s, w).
Proof.
  intros Hs. unfold this_session, bind, get_world. rewrite Hs. reflexivity.
Qed.

Lemma this_session_closed (w : World) :
  state_session w = None ->
  this_session w =
    (Returned (fresh_session w),
     MkWorld (history w) (Some (fresh_session w)) (files w)
             (S (clock w)) (S (uuids w))).
Proof.
  intros Hs. unfold this_session, bind, get_world. rewrite Hs. reflexivity.
Qed.

(** [this_session] always returns, and leaves the returned session open. *)
Lemma this_session_returns (w : World) :
  exists s w', this_session w = (Returned s, w') /\ state_session w' = Some s
               /\ history w' = history w /\ files w' = files w.
Proof.
  destruct (state_session w) as [s|] eqn:Hs.
  - exists s, w. rewrite (this_session_open w s Hs). auto.
  - eexists; eexists. rewrite (this_session_closed w Hs). simpl. auto.
Qed.

Lemma filterM_session_open (w : World) (s : Session.t) (rows : list GameRow.t) :
  state_session w = Some s ->
  filterM (fun row =>
             s <- this_session ;;
             ret (match GameRow.session_id row with
                  | Some sid => String.eqb sid (Session.session_id s)
                  | None => false
                  end)) rows w
  = (Returned (session_games (Session.session_id s) rows), w).
Proof.
  intros Hs. induction rows as [|row rows IH]; [reflexivity|].
  simpl filterM. unfold bind at 1. unfold bind at 1.
  rewrite (this_session_open w s Hs). unfold ret at 1.
  unfold bind at 1. rewrite IH. unfold ret. simpl.
  destruct (GameRow.session_id row) as [sid|]; [|reflexivity].
  destruct (String.eqb sid (Session.session_id s)); reflexivity.
Qed.

Lemma this_sessions_games_open (w : World) (s : Session.t) :
  state_session w = Some s ->
  this_sessions_games w
  = (Returned (session_games (Session.session_id s) (games (history w))), w).
Proof.
  intros Hs. unfold this_sessions_games, bind at 1, get_world.
  apply filterM_session_open; assumption.
Qed.

(** C7. Starting while a session is open changes nothing: [start_session]
    returns the message built from the open session's own [start_time] and
    leaves the whole world as it was, so no identifier is drawn and the
    open session is the same object with the same fields.  Through the
    handler, the command [start] answers with that message, and afterwards
    the history, the open session and the count of identifiers drawn are
    unchanged. *)
Theorem start_session_idempotent :
  forall (w : World) (s : Session.t) (form_text : string),
    state_session w = Some s ->
    start_session w
      = (Returned ("Session started at " ++ Session.start_time s), w)
    /\ (strip (lower form_text) = "start" ->
        let r := manage_session form_text w in
        fst r = Returned (jsonify ("Session started at " ++ Session.start_time s))
        /\ state_session (snd r) = Some s
        /\ uuids (snd r) = uuids w
        /\ history (snd r) = history w).
Proof.
  intros w s form_text Hs.
  assert (Hstart : start_session w
            = (Returned ("Session started at " ++ Session.start_time s), w)).
  { unfold start_session, bind. rewrite (this_session_open w s Hs). reflexivity. }
  split; [exact Hstart|].
  intros Hcmd.
  assert (Hrun : manage_session form_text w
            = (Returned (jsonify ("Session started at " ++ Session.start_time s)),
               MkWorld (history w) (state_session w)
                       (write_file (files w) DB_FILENAME (history_dump (history w)))
                       (clock w) (uuids w))).
  { unfold manage_session. rewrite Hcmd. simpl String.eqb.
    unfold bind at 1. rewrite Hstart. reflexivity. }
  rewrite Hrun. simpl. auto.
Qed.

(** [end_session] on an open session, step by step. *)
Lemma end_session_open (w : World) (s : Session.t) :
  state_session w = Some s ->
  end_session w =
    match get_winner (session_games (Session.session_id s) (games (history w))) with
    | Returned winner =>
        (Returned ("Session ended at " ++ asctime (clock w)
                   ++ " after " ++ str_of_int (Session.game_count s)
                   ++ " games. Winner is " ++ winner ++ "!"),
         MkWorld (history (closed_at w s)) None (files (closed_at w s))
                 (S (clock w)) (uuids w))
    | Raised e => (Raised e, closed_at w s)
    end.
Proof.
  intros Hs. destruct w as [h ss fs c u]. simpl in Hs. subst ss.
  unfold closed_at. run_handler.
  match goal with
  | |- context [this_sessions_games ?W] =>
      rewrite (this_sessions_games_open W
                 (Session.set_end_time s (Some (asctime c))) eq_refl)
  end.
  simpl.
  destruct (get_winner (session_games (Session.session_id s) (games h)));
    reflexivity.
Qed.

(** [log_result] on an open session: the world it leaves, whatever
    the outcome. *)
Lemma log_result_open (w : World) (s : Session.t) (form_text : string) :
  state_session w = Some s ->
  snd (log_result form_text w) = logged w s (split form_text)
  /\ (forall e, first (split form_text) = Raised e ->
                fst (log_result form_text w) = Raised e).
Proof.
  intros Hs. destruct w as [h ss fs c u]. simpl in Hs. subst ss.
  unfold logged. run_handler.
  destruct (first (split form_text)) as [winner|e0] eqn:Hfirst.
  - match goal with
    | |- context [this_sessions_games ?W] =>
        rewrite (this_sessions_games_open W
                   (Session.set_game_count s (Session.game_count s + 1)) eq_refl)
    end.
    cbv beta iota.
    split; [|discriminate].
    match goal with
    | |- context [get_wins ?g] => destruct (get_wins g)
    end; [|reflexivity].
    cbv beta iota.
    match goal with
    | |- context [pretty_print ?g] => destruct (pretty_print g)
    end; reflexivity.
  - split; [reflexivity|]. intros e He. inversion He. reflexivity.
Qed.

(** A call of [log_result] behaves as it does once [this_session] has
    run. *)
Lemma log_result_after_this_session (w w0 : World) (s0 : Session.t)
    (form_text : string) :
  this_session w = (Returned s0, w0) ->
  log_result form_text w = log_result form_text w0.
Proof.
  intros Hts.
  assert (Hopen : this_session w0 = (Returned s0, w0)).
  { destruct (state_session w) as [s|] eqn:Hs.
    - rewrite (this_session_open w s Hs) in Hts. inversion Hts; subst. apply this_session_open; assumption.
    - rewrite (this_session_closed w Hs) in Hts. inversion Hts; subst.
      apply this_session_open. reflexivity. }
  unfold log_result. unfold bind at 1. rewrite Hts.
  symmetry. unfold bind at 1. rewrite Hopen. reflexivity.
Qed.

Lemma session_games_app (sid : string) (l1 l2 : list GameRow.t) :
  session_games sid (l1 ++ l2)
  = (session_games sid l1 ++ session_games sid l2)%list.
Proof. unfold session_games. apply filter_app. Qed.

(** One call of [log_result] keeps the count of the open session equal
    to the number of its rows. *)
Lemma log_result_keeps_count (w : World) (s : Session.t) (form_text : string) :
  state_session w = Some s ->
  Session.game_count s
    = count_session_games (Session.session_id s) (games (history w)) ->
  exists s',
    state_session (snd (log_result form_text w)) = Some s'
    /\ Session.session_id s' = Session.session_id s
    /\ Session.game_count s' = Session.game_count s + 1
    /\ Session.game_count s'
       = count_session_games (Session.session_id s')
                             (games (history (snd (log_result form_text w)))).
Proof.
  intros Hs Hcount.
  destruct (log_result_open w s form_text Hs) as [Hw _]. rewrite Hw.
  unfold logged. simpl. eexists. split; [reflexivity|]. split; [reflexivity|].
  split; [reflexivity|].
  simpl. unfold count_session_games in *. rewrite session_games_app.
  rewrite length_app. simpl. rewrite String.eqb_refl. simpl.
  rewrite Hcount. lia.
Qed.

Lemma log_results_keep_count (texts : list string) :
  forall (w : World) (s : Session.t),
    state_session w = Some s ->
    Session.game_count s
      = count_session_games (Session.session_id s) (games (history w)) ->
    exists s',
      state_session (log_results texts w) = Some s'
      /\ Session.session_id s' = Session.session_id s
      /\ Session.game_count s'
         = Session.game_count s + Z.of_nat (List.length texts)
      /\ Session.game_count s'
         = count_session_games (Session.session_id s')
                               (games (history (log_results texts w))).
Proof.
  induction texts as [|t rest IH]; intros w s Hs Hcount.
  - exists s. simpl. repeat split; auto. lia.
  - cbn [log_results List.length].
    destruct (log_result_keeps_count w s t Hs Hcount)
      as (s1 & Hs1 & Hid1 & Hn1 & Hc1).
    destruct (IH _ s1 Hs1 Hc1) as (s' & Hs' & Hid' & Hn' & Hc').
    exists s'. repeat split; try assumption; try congruence. lia.
Qed.

(** C3. Ending an open session that has no game fails with the session
    already closed on both sides and still installed: [end_session]
    raises [IndexError] from the winner computation; by then the closed
    row, with the end time just taken, is the last of
    [app.history['sessions']], the file holds that history, and
    [app.state['session']] still refers to the session, whose [end_time]
    is now that time.  A second [end_session] therefore appends a second
    row with the same [session_id] and a later end time, and fails
    again. *)
Theorem end_session_without_games_leaves_session_open :
  forall (w : World) (s : Session.t),
    state_session w = Some s ->
    session_games (Session.session_id s) (games (history w)) = [] ->
    let r1 := end_session w in
    let r2 := end_session (snd r1) in
    let t1 := asctime (clock w) in
    let t2 := asctime (S (clock w)) in
    let row1 := SessionRow.Make (Session.session_id s) (Session.start_time s)
                                (Some t1) (Session.game_count s) in
    let row2 := SessionRow.Make (Session.session_id s) (Session.start_time s)
                                (Some t2) (Session.game_count s) in
    fst r1 = Raised IndexError
    /\ sessions (history (snd r1)) = (sessions (history w) ++ [row1])%list
    /\ games (history (snd r1)) = games (history w)
    /\ files (snd r1) DB_FILENAME
       = Some (history_dump (MkHistory (games (history w))
                                       (sessions (history w) ++ [row1])))
    /\ state_session (snd r1)
       = Some (Session.Make (Session.start_time s) (Session.session_id s)
                            (Some t1) (Session.game_count s))
    /\ (exists s1, state_session (snd r1) = Some s1
                   /\ Session.end_time s1 = Some t1
                   /\ Session.session_id s1 = Session.session_id s)
    /\ fst r2 = Raised IndexError
    /\ sessions (history (snd r2)) = (sessions (history w) ++ [row1; row2])%list
    /\ state_session (snd r2)
       = Some (Session.Make (Session.start_time s) (Session.session_id s)
                            (Some t2) (Session.game_count s))
    /\ SessionRow.end_time row1 = Some t1
    /\ SessionRow.end_time row2 = Some t2
    /\ SessionRow.session_id row1 = Session.session_id s
    /\ SessionRow.session_id row2 = Session.session_id s.
Proof.
  intros w s Hs Hnone r1 r2 t1 t2 row1 row2.
  assert (H1 : r1 = (Raised IndexError, closed_at w s)).
  { unfold r1. rewrite (end_session_open w s Hs), Hnone. reflexivity. }
  assert (H2 : r2 = (Raised IndexError,
                     closed_at (closed_at w s)
                       (Session.set_end_time s (Some (asctime (clock w)))))).
  { unfold r2. rewrite H1. simpl snd.
    rewrite (end_session_open (closed_at w s)
               (Session.set_end_time s (Some (asctime (clock w)))) eq_refl).
    simpl Session.session_id. simpl games. rewrite Hnone. reflexivity. }
  rewrite H2, H1. unfold row1, row2, t1, t2. simpl.
  rewrite <- app_assoc. simpl.
  repeat split; try reflexivity.
  eexists. repeat split; reflexivity.
Qed.

(** C4. A submission whose text splits to no name at all is logged
    before it fails: with [s0] the session [this_session] yields (the open
    one, or a new one) in world [w0], [log_result] raises [IndexError] at
    [scoreboard[0]]; by then a row with an empty scoreboard is the last of
    [app.history['games']], the [game_count] of the session left installed
    is one more than it was (1 for a new session), and the file holds the
    history with that row. *)
Theorem log_result_empty_scoreboard_is_logged :
  forall (w w0 : World) (s0 : Session.t) (form_text : string),
    split form_text = [] ->
    this_session w = (Returned s0, w0) ->
    let r := log_result form_text w in
    fst r = Raised IndexError
    /\ games (history (snd r))
       = (games (history w)
          ++ [GameRow.Make (asctime (clock w0)) [] (Some (Session.session_id s0))])%list
    /\ sessions (history (snd r)) = sessions (history w)
    /\ state_session (snd r)
       = Some (Session.Make (Session.start_time s0) (Session.session_id s0)
                            (Session.end_time s0) (Session.game_count s0 + 1))
    /\ (exists s1,
          state_session (snd r) = Some s1
          /\ Session.game_count s1 =
             match state_session w with
             | Some s => Session.game_count s + 1
             | None => 1
             end)
    /\ files (snd r) DB_FILENAME = Some (history_dump (history (snd r))).
Proof.
  intros w w0 s0 form_text Hsplit Hts r. unfold r.
  rewrite (log_result_after_this_session w w0 s0 form_text Hts).
  assert (Hs0 : state_session w0 = Some s0 /\ history w0 = history w
                /\ Session.game_count s0 + 1 =
                   match state_session w with
                   | Some s => Session.game_count s + 1
                   | None => 1
                   end).
  { destruct (state_session w) as [s|] eqn:Hs.
    - rewrite (this_session_open w s Hs) in Hts. inversion Hts; subst. auto.
    - rewrite (this_session_closed w Hs) in Hts. inversion Hts; subst.
      simpl. auto. }
  destruct Hs0 as (Hs0 & Hh & Hc).
  destruct (log_result_open w0 s0 form_text Hs0) as [Hw Hraise].
  rewrite Hw, (Hraise IndexError) by (rewrite Hsplit; reflexivity).
  rewrite Hsplit. unfold logged. simpl. rewrite Hh, ?String.eqb_refl.
  repeat split; auto.
  eexists. split; [reflexivity|]. simpl. exact Hc.
Qed.

(** C6. From the start of a session on, through any sequence of
    [log_result] calls, the open session is the one that was started and
    its [game_count] is the number of rows of [app.history['games']] that
    carry its [session_id]; it is also the number of calls made.  The
    identifier drawn for the session is taken to be new: no row carries it
    yet. *)
Theorem game_count_counts_session_rows :
  forall (w : World) (texts : list string),
    state_session w = None ->
    session_games (uuid4 (uuids w)) (games (history w)) = [] ->
    let w' := log_results texts (snd (start_session w)) in
    exists s',
      state_session w' = Some s'
      /\ Session.session_id s' = uuid4 (uuids w)
      /\ Session.game_count s' = Z.of_nat (List.length texts)
      /\ Session.game_count s'
         = count_session_games (Session.session_id s') (games (history w')).
Proof.
  intros w texts Hnone Hfresh w'.
  assert (Hstart : snd (start_session w)
            = MkWorld (history w) (Some (fresh_session w)) (files w)
                      (S (clock w)) (S (uuids w))).
  { unfold start_session, bind. rewrite (this_session_closed w Hnone).
    reflexivity. }
  unfold w'. rewrite Hstart.
  destruct (log_results_keep_count texts
              (MkWorld (history w) (Some (fresh_session w)) (files w)
                       (S (clock w)) (S (uuids w)))
              (fresh_session w) eq_refl)
    as (s' & Hs' & Hid & Hn & Hc).
  - simpl. unfold count_session_games. rewrite Hfresh. reflexivity.
  - exists s'. simpl in Hid, Hn. repeat split; assumption.
Qed.

(* ------------------------------------------------------------------ *)
(** * Persistence                                                       *)
(* ------------------------------------------------------------------ *)

Lemma map_opt_map {A B} (f : B -> option A) (g : A -> B) (l : list A) :
  (forall x, f (g x) = Some x) -> map_opt f (map g l) = Some l.
Proof.
  intros Hfg. induction l as [|x l IH]; [reflexivity|].
  simpl. rewrite Hfg, IH. reflexivity.
Qed.

Lemma GameRow_load_dump (r : GameRow.t) : GameRow.load (GameRow.dump r) = Some r.
Proof.
  destruct r as [ts sb sid]. unfold GameRow.load, GameRow.dump.
  cbn [GameRow.timestamp GameRow.scoreboard GameRow.session_id].
  cbn [jget String.eqb Ascii.eqb Bool.eqb].
  rewrite (map_opt_map _ JStr sb) by reflexivity.
  destruct sid; reflexivity.
Qed.

Lemma SessionRow_load_dump (r : SessionRow.t) :
  SessionRow.load (SessionRow.dump r) = Some r.
Proof.
  destruct r as [sid st et n]. unfold SessionRow.load, SessionRow.dump.
  cbn [SessionRow.session_id SessionRow.start_time SessionRow.end_time
       SessionRow.game_count].
  cbn [jget String.eqb Ascii.eqb Bool.eqb].
  destruct et; reflexivity.
Qed.

Lemma history_update_dump (h0 h : History) :
  history_update h0 (history_dump h) = Returned h.
Proof.
  destruct h as [gs ss]. unfold history_update, history_dump.
  cbn [games sessions].
  cbn [jget String.eqb Ascii.eqb Bool.eqb].
  rewrite (map_opt_map _ _ gs GameRow_load_dump).
  rewrite (map_opt_map _ _ ss SessionRow_load_dump).
  reflexivity.
Qed.

(** C8. Saving a history and loading the file back into the initial,
    empty history gives the history that was saved: the same game rows and
    the same session rows, in the same order.  This holds for every
    history, every file name and whatever the files held before. *)
Theorem save_then_load_roundtrip :
  forall (h : History) (filename : string) (w : World),
    let w' := snd (save_history h filename w) in
    fst (save_history h filename w) = Returned tt
    /\ load_history (files w') filename empty_history = Returned h.
Proof.
  intros h filename w. simpl. split; [reflexivity|].
  unfold load_history, write_file. rewrite String.eqb_refl.
  apply history_update_dump.
Qed.

(* ------------------------------------------------------------------ *)
(** * Dicts                                                             *)
(* ------------------------------------------------------------------ *)

Lemma dict_get_set {V} (d : dict V) (k k' : string) (v : V) :
  dict_get (dict_set d k v) k'
  = if String.eqb k' k then Some v else dict_get d k'.
Proof.
  induction d as [|[k0 v0] d IH]; simpl.
  - reflexivity.
  - destruct (String.eqb k k0) eqn:Hk; simpl.
    + apply String.eqb_eq in Hk. subst k0.
      destruct (String.eqb k' k); reflexivity.
    + destruct (String.eqb k' k0) eqn:Hk'.
      * apply String.eqb_eq in Hk'. subst k0.
        rewrite String.eqb_sym, Hk. reflexivity.
      * exact IH.
Qed.

Lemma dict_get_add (d : dict Z) (k k' : string) (n : Z) :
  dict_get (dict_add d k n) k'
  = if String.eqb k' k then Some (val (dict_get d k) + n) else dict_get d k'.
Proof.
  unfold dict_add, dict_mem.
  destruct (dict_get d k) as [v|] eqn:Hget.
  - rewrite Hget. rewrite dict_get_set. reflexivity.
  - rewrite (dict_get_set d k k 0), String.eqb_refl.
    rewrite dict_get_set.
    destruct (String.eqb k' k) eqn:Hk; [reflexivity|].
    rewrite dict_get_set, Hk. reflexivity.
Qed.

Lemma dict_keys_get {V} (d : dict V) (k : string) :
  In k (dict_keys d) <-> dict_get d k <> None.
Proof.
  induction d as [|[k0 v0] d IH]; simpl.
  - split; [intros []|congruence].
  - destruct (String.eqb k k0) eqn:Hk.
    + apply String.eqb_eq in Hk. subst. split; [discriminate|auto].
    + apply String.eqb_neq in Hk. rewrite <- IH. split.
      * intros [H|H]; [congruence|assumption].
      * auto.
Qed.

Lemma dict_keys_set {V} (d : dict V) (k : string) (v : V) :
  dict_keys (dict_set d k v)
  = if dict_mem d k then dict_keys d else (dict_keys d ++ [k])%list.
Proof.
  unfold dict_mem. induction d as [|[k0 v0] d IH]; simpl.
  - reflexivity.
  - destruct (String.eqb k k0) eqn:Hk; simpl; [reflexivity|].
    rewrite IH. destruct (dict_get d k); reflexivity.
Qed.

Lemma NoDup_snoc {A} (l : list A) (x : A) :
  NoDup l -> ~ In x l -> NoDup (l ++ [x]).
Proof.
  intros Hl Hx. induction Hl as [|y l Hy Hl IH]; simpl.
  - constructor; [intros []|constructor].
  - constructor.
    + rewrite in_app_iff. simpl. intros [H|[H|[]]]; [auto|].
      subst. apply Hx. left. reflexivity.
    + apply IH. intros H. apply Hx. right. assumption.
Qed.

Lemma dict_set_NoDup {V} (d : dict V) (k : string) (v : V) :
  NoDup (dict_keys d) -> NoDup (dict_keys (dict_set d k v)).
Proof.
  intros Hd. rewrite dict_keys_set. unfold dict_mem.
  destruct (dict_get d k) eqn:Hget; [assumption|].
  apply NoDup_snoc; [assumption|].
  rewrite dict_keys_get. congruence.
Qed.

Lemma dict_add_NoDup (d : dict Z) (k : string) (n : Z) :
  NoDup (dict_keys d) -> NoDup (dict_keys (dict_add d k n)).
Proof.
  intros Hd. unfold dict_add.
  destruct (dict_mem d k);
    destruct (dict_get _ k); auto using dict_set_NoDup.
Qed.

(** With no repeated key, the entries are what [dict_get] finds. *)
Lemma dict_get_In {V} (d : dict V) (k : string) (v : V) :
  NoDup (dict_keys d) -> (In (k, v) d <-> dict_get d k = Some v).
Proof.
  induction d as [|[k0 v0] d IH]; simpl; intros Hd.
  - split; [intros []|discriminate].
  - inversion Hd as [|? ? Hk0 Hd']; subst.
    destruct (String.eqb k k0) eqn:Hk.
    + apply String.eqb_eq in Hk. subst k0. split.
      * intros [H|H]; [congruence|].
        exfalso. apply Hk0. apply (in_map fst) in H. exact H.
      * intros H. left. congruence.
    + apply String.eqb_neq in Hk. rewrite <- (IH Hd'). split.
      * intros [H|H]; [congruence|assumption].
      * auto.
Qed.

(* ------------------------------------------------------------------ *)
(** * Scoring: [summarize]                                              *)
(* ------------------------------------------------------------------ *)

Lemma appearances_nonneg (name : string) (sb : list string) :
  0 <= appearances name sb.
Proof. unfold appearances. lia. Qed.

Lemma appearances_cons (name x : string) (sb : list string) :
  appearances name (x :: sb)
  = (if String.eqb x name then 1 else 0) + appearances name sb.
Proof.
  unfold appearances. simpl.
  destruct (string_dec x name) as [e|ne].
  - subst. rewrite String.eqb_refl. lia.
  - apply String.eqb_neq in ne. rewrite ne. lia.
Qed.

Lemma rank_points_absent (name : string) (N : Z) (sb : list string) :
  forall start, appearances name sb = 0 -> rank_points name N start sb = 0.
Proof.
  induction sb as [|x sb IH]; intros start H; [reflexivity|].
  rewrite appearances_cons in H. simpl.
  pose proof (appearances_nonneg name sb).
  destruct (String.eqb x name); [lia|].
  rewrite IH by lia. reflexivity.
Qed.

Lemma credit_credit (o : option Z) (c1 t1 c2 t2 : Z) :
  0 <= c1 -> 0 <= c2 -> (c1 = 0 -> t1 = 0) -> (c2 = 0 -> t2 = 0) ->
  credit (credit o c1 t1) c2 t2 = credit o (c1 + c2) (t1 + t2).
Proof.
  intros H1 H2 Ht1 Ht2. unfold credit.
  destruct (Z.eqb_spec c1 0) as [e1|n1];
    destruct (Z.eqb_spec c2 0) as [e2|n2];
    destruct (Z.eqb_spec (c1 + c2) 0) as [e|n]; try lia; simpl.
  - reflexivity.
  - rewrite Ht1 by assumption. f_equal.
  - rewrite Ht2 by assumption. f_equal. lia.
  - f_equal. lia.
Qed.

(** The inner loop of [summarize], from rank [start] on. *)
Lemma summarize_ranks (name : string) (N : Z) (sb : list string) :
  forall (start : Z) (st : Stats),
    let st' :=
      fold_left
        (fun st (item : Z * string) =>
           let (n, name) := item in
           MkStats (dict_add (player_points st) name (N - n))
                   (dict_add (player_games st) name 1))
        (enumerate sb start) st in
    dict_get (player_points st') name
      = credit (dict_get (player_points st) name)
               (appearances name sb) (rank_points name N start sb)
    /\ dict_get (player_games st') name
      = credit (dict_get (player_games st) name)
               (appearances name sb) (appearances name sb).
Proof.
  induction sb as [|x sb IH]; intros start st; [split; reflexivity|].
  cbn [enumerate fold_left].
  destruct (IH (start + 1)
              (MkStats (dict_add (player_points st) x (N - start))
                       (dict_add (player_games st) x 1))) as [IHp IHg].
  cbv zeta in IHp, IHg |- *. rewrite IHp, IHg.
  cbn [player_points player_games rank_points].
  rewrite !dict_get_add, appearances_cons.
  pose proof (appearances_nonneg name sb) as Hnn.
  pose proof (rank_points_absent name N sb (start + 1)) as Hz.
  rewrite (String.eqb_sym name x).
  destruct (String.eqb x name) eqn:Hx.
  - apply String.eqb_eq in Hx. subst x.
    replace (Some (val (dict_get (player_points st) name) + (N - start)))
      with (credit (dict_get (player_points st) name) 1 (N - start))
      by reflexivity.
    replace (Some (val (dict_get (player_games st) name) + 1))
      with (credit (dict_get (player_games st) name) 1 1) by reflexivity.
    rewrite !credit_credit by lia. split; reflexivity.
  - split; reflexivity.
Qed.

Lemma summarize_scoreboard_get (name : string) (st : Stats) (sb : list string) :
  dict_get (player_points (summarize_scoreboard st sb)) name
    = credit (dict_get (player_points st) name)
             (appearances name sb) (game_points name sb)
  /\ dict_get (player_games (summarize_scoreboard st sb)) name
    = credit (dict_get (player_games st) name)
             (appearances name sb) (appearances name sb).
Proof.
  unfold summarize_scoreboard, game_points.
  apply (summarize_ranks name (Z.of_nat (List.length sb)) sb 1 st).
Qed.

Lemma total_appearances_nonneg (name : string) (gs : list GameRow.t) :
  0 <= total_appearances name gs.
Proof.
  induction gs as [|g gs IH]; simpl; [lia|].
  pose proof (appearances_nonneg name (GameRow.scoreboard g)). lia.
Qed.

Lemma total_points_absent (name : string) (gs : list GameRow.t) :
  total_appearances name gs = 0 -> total_points name gs = 0.
Proof.
  induction gs as [|g gs IH]; simpl; intros H; [reflexivity|].
  pose proof (appearances_nonneg name (GameRow.scoreboard g)).
  pose proof (total_appearances_nonneg name gs).
  rewrite IH by lia. unfold game_points.
  rewrite rank_points_absent by lia. reflexivity.
Qed.

(** The outer loop of [summarize], from the tallies so far. *)
Lemma summarize_from (name : string) (gs : list GameRow.t) :
  forall st : Stats,
    let st' := fold_left
                 (fun st result => summarize_scoreboard st (GameRow.scoreboard result))
                 gs st in
    dict_get (player_points st') name
      = credit (dict_get (player_points st) name)
               (total_appearances name gs) (total_points name gs)
    /\ dict_get (player_games st') name
      = credit (dict_get (player_games st) name)
               (total_appearances name gs) (total_appearances name gs).
Proof.
  induction gs as [|g gs IH]; intros st; [split; reflexivity|].
  cbn [fold_left].
  destruct (IH (summarize_scoreboard st (GameRow.scoreboard g))) as [IHp IHg].
  cbv zeta in IHp, IHg |- *. rewrite IHp, IHg.
  destruct (summarize_scoreboard_get name st (GameRow.scoreboard g)) as [Hp Hg].
  rewrite Hp, Hg. cbn [total_appearances total_points fold_right].
  fold (total_appearances name gs). fold (total_points name gs).
  pose proof (appearances_nonneg name (GameRow.scoreboard g)).
  pose proof (total_appearances_nonneg name gs).
  pose proof (total_points_absent name gs).
  assert (appearances name (GameRow.scoreboard g) = 0 ->
          game_points name (GameRow.scoreboard g) = 0).
  { intros. unfold game_points. apply rank_points_absent. assumption. }
  rewrite !credit_credit by (assumption || lia). split; reflexivity.
Qed.

Lemma summarize_get (name : string) (gs : list GameRow.t) :
  dict_get (player_points (summarize gs)) name
    = (if total_appearances name gs =? 0 then None
       else Some (total_points name gs))
  /\ dict_get (player_games (summarize gs)) name
    = (if total_appearances name gs =? 0 then None
       else Some (total_appearances name gs)).
Proof.
  destruct (summarize_from name gs (MkStats [] [])) as [Hp Hg].
  unfold summarize. cbv zeta in Hp, Hg. rewrite Hp, Hg.
  unfold credit. simpl. split; reflexivity.
Qed.

(** On a scoreboard without repeated names, the player at position
    [i] (from 0) has rank [i + 1], stands there once, and gets [N - (i + 1)]
    points. *)
Lemma game_points_at_rank (sb : list string) :
  forall (N start : Z) (i : nat) (name : string),
    NoDup sb -> nth_error sb i = Some name ->
    rank_points name N start sb = N - (start + Z.of_nat i)
    /\ appearances name sb = 1.
Proof.
  induction sb as [|x sb IH]; intros N start i name Hnd Hnth.
  - destruct i; discriminate.
  - inversion Hnd as [|? ? Hx Hnd']; subst.
    rewrite appearances_cons. cbn [rank_points].
    destruct i as [|i]; simpl in Hnth.
    + inversion Hnth; subst. rewrite String.eqb_refl.
      assert (Hzero : appearances name sb = 0).
      { unfold appearances.
        rewrite (proj1 (count_occ_not_In string_dec sb name) Hx). reflexivity. }
      rewrite (rank_points_absent name N sb (start + 1) Hzero). lia.
    + assert (Hne : String.eqb x name = false).
      { apply String.eqb_neq. intros ->. apply Hx.
        apply nth_error_In with i. assumption. }
      rewrite Hne.
      destruct (IH N (start + 1) i name Hnd' Hnth) as [Hr Ha].
      rewrite Hr, Ha. lia.
Qed.

(** C9. [summarize] gives [N - n] points to the player at rank [n]
    (from 1) of a scoreboard of [N] names and counts one game for each
    appearance, summed over all the games given.  For one game whose
    scoreboard has no repeated name, the player at position [i] (from 0)
    ends with [N - (i + 1)] points and one game.  For any list of games, a
    player who appears has the sum of the points of all appearances under
    [player_points] and the number of appearances under [player_games],
    and a player who never appears is a key of neither.  Over the single
    game A, B, C the tallies are A:2, B:1, C:0 and A:1, B:1, C:1. *)
Theorem summarize_credits_ranks :
  (forall (sb : list string) (i : nat) (name : string) (ts : string)
          (sid : option string),
      NoDup sb -> nth_error sb i = Some name ->
      let stats := summarize [GameRow.Make ts sb sid] in
      dict_get (player_points stats) name
        = Some (Z.of_nat (List.length sb) - (Z.of_nat i + 1))
      /\ dict_get (player_games stats) name = Some 1)
  /\ (forall (gs : list GameRow.t) (name : string),
        dict_get (player_points (summarize gs)) name
          = (if total_appearances name gs =? 0 then None
             else Some (total_points name gs))
        /\ dict_get (player_games (summarize gs)) name
          = (if total_appearances name gs =? 0 then None
             else Some (total_appearances name gs)))
  /\ summarize [game ["A"; "B"; "C"]]
     = MkStats [("A", 2); ("B", 1); ("C", 0)] [("A", 1); ("B", 1); ("C", 1)].
Proof.
  split; [|split; [exact (fun gs name => summarize_get name gs)|reflexivity]].
  intros sb i name ts sid Hnd Hnth stats.
  destruct (summarize_get name [GameRow.Make ts sb sid]) as [Hp Hg].
  unfold stats. rewrite Hp, Hg.
  cbn [total_appearances total_points fold_right GameRow.scoreboard].
  unfold game_points.
  destruct (game_points_at_rank sb (Z.of_nat (List.length sb)) 1 i name Hnd Hnth)
    as [Hr Ha].
  rewrite Hr, Ha. change (1 + 0 =? 0) with false. cbv iota. split; f_equal; lia.
Qed.

(* ------------------------------------------------------------------ *)
(** * Sorting                                                           *)
(* ------------------------------------------------------------------ *)

Lemma insert_sorted_perm {A} (before : A -> A -> bool) (x : A) (l : list A) :
  Permutation (insert_sorted before x l) (x :: l).
Proof.
  induction l as [|y l IH]; simpl; [reflexivity|].
  destruct (before y x); [|reflexivity].
  rewrite IH. apply perm_swap.
Qed.

Lemma sorted_perm {A} (before : A -> A -> bool) (l : list A) :
  Permutation (sorted before l) l.
Proof.
  induction l as [|x l IH]; simpl; [reflexivity|].
  rewrite insert_sorted_perm. constructor. exact IH.
Qed.

Section SortedFacts.
Context {A : Type} (before : A -> A -> bool).

Hypothesis before_asym : forall a b, before a b = true -> before b a = false.
Hypothesis before_negtrans :
  forall a b c, before a b = false -> before b c = false -> before a c = false.

Lemma insert_sorted_sorted (x : A) (l : list A) :
  StronglySorted (not_after before) l -> StronglySorted (not_after before) (insert_sorted before x l).
Proof.
  induction 1 as [|y l Hl IH Hy]; simpl.
  - constructor; constructor.
  - destruct (before y x) eqn:Hyx.
    + constructor; [exact IH|].
      apply (Permutation_Forall (Permutation_sym (insert_sorted_perm before x l))).
      constructor; [|exact Hy].
      unfold not_after. apply before_asym. exact Hyx.
    + constructor; [constructor; assumption|].
      constructor; [exact Hyx|].
      eapply Forall_impl; [|exact Hy].
      intros z Hz. unfold not_after in *. eapply before_negtrans; eassumption.
Qed.

Lemma sorted_sorted (l : list A) : StronglySorted (not_after before) (sorted before l).
Proof.
  induction l as [|x l IH]; simpl; [constructor|].
  apply insert_sorted_sorted. exact IH.
Qed.

(** The last element of a sorted list is a greatest one. *)
Lemma last_item_greatest (l : list A) (m : A) :
  StronglySorted (not_after before) l -> last_item l = Returned m ->
  In m l /\ forall y, In y l -> y = m \/ not_after before y m.
Proof.
  induction 1 as [|x l Hl IH Hx]; intros Hlast; [discriminate|].
  destruct l as [|x' l'].
  - inversion Hlast; subst. split; [left; reflexivity|].
    intros y [Hy|[]]. left. symmetry. exact Hy.
  - change (last_item (x :: x' :: l')) with (last_item (x' :: l')) in Hlast.
    destruct (IH Hlast) as [Hin Hmax]. split; [right; exact Hin|].
    intros y [Hy|Hy].
    + subst y. right. rewrite Forall_forall in Hx. apply Hx. exact Hin.
    + apply Hmax. exact Hy.
Qed.

Lemma last_item_returns (l : list A) :
  l <> [] -> exists m, last_item l = Returned m.
Proof.
  induction l as [|x l IH]; intros Hne; [congruence|].
  destruct l as [|x' l']; [exists x; reflexivity|].
  destruct IH as [m Hm]; [discriminate|]. exists m. exact Hm.
Qed.

End SortedFacts.

(** ** The order on [str] and on the tuples [(int, str)] *)

Lemma str_lt_iff (a b : string) : str_lt a b = true <-> String_as_OT.lt a b.
Proof.
  unfold str_lt, String_as_OT.lt.
  destruct (String_as_OT.compare a b); split; congruence.
Qed.

Lemma str_lt_irrefl (a : string) : str_lt a a = false.
Proof.
  destruct (str_lt a a) eqn:H; [|reflexivity].
  apply str_lt_iff in H. exfalso.
  exact (StrictOrder_Irreflexive (R := String_as_OT.lt) a H).
Qed.

Lemma str_lt_trans (a b c : string) :
  str_lt a b = true -> str_lt b c = true -> str_lt a c = true.
Proof.
  rewrite !str_lt_iff. apply (StrictOrder_Transitive (R := String_as_OT.lt)).
Qed.

Lemma str_lt_total (a b : string) :
  str_lt a b = true \/ a = b \/ str_lt b a = true.
Proof.
  rewrite !str_lt_iff.
  destruct (String_as_OT.compare_spec a b); auto.
Qed.

Lemma str_lt_asym (a b : string) : str_lt a b = true -> str_lt b a = false.
Proof.
  intros Hab. destruct (str_lt b a) eqn:Hba; [|reflexivity].
  pose proof (str_lt_trans a b a Hab Hba) as H.
  rewrite str_lt_irrefl in H. discriminate.
Qed.

Lemma str_lt_negtrans (a b c : string) :
  str_lt a b = false -> str_lt b c = false -> str_lt a c = false.
Proof.
  intros Hab Hbc. destruct (str_lt a c) eqn:Hac; [|reflexivity].
  destruct (str_lt_total a b) as [H|[H|H]]; [congruence| |].
  - subst b. congruence.
  - destruct (str_lt_total b c) as [H'|[H'|H']]; [congruence| |].
    + subst c. rewrite (str_lt_asym _ _ H) in Hac. discriminate.
    + pose proof (str_lt_trans _ _ _ H' H) as Hca.
      rewrite (str_lt_asym _ _ Hca) in Hac. discriminate.
Qed.

Lemma tuple_lt_iff (a b : Z * string) :
  tuple_lt a b = true
  <-> fst a < fst b \/ (fst a = fst b /\ str_lt (snd a) (snd b) = true).
Proof.
  unfold tuple_lt.
  rewrite orb_true_iff, andb_true_iff, Z.ltb_lt, Z.eqb_eq. reflexivity.
Qed.

Lemma tuple_lt_false_iff (a b : Z * string) :
  tuple_lt a b = false
  <-> fst b <= fst a /\ (fst a = fst b -> str_lt (snd a) (snd b) = false).
Proof.
  unfold tuple_lt.
  rewrite orb_false_iff, andb_false_iff, Z.ltb_ge, Z.eqb_neq. split.
  - intros [H1 [H2|H2]]; split; auto. intros; contradiction.
  - intros [H1 H2]. split; [assumption|].
    destruct (Z.eq_dec (fst a) (fst b)); auto.
Qed.

Lemma tuple_lt_asym (a b : Z * string) :
  tuple_lt a b = true -> tuple_lt b a = false.
Proof.
  rewrite tuple_lt_iff, tuple_lt_false_iff.
  intros [H|[H1 H2]]; split; try lia.
  - intros. apply str_lt_asym. assumption.
Qed.

Lemma tuple_lt_negtrans (a b c : Z * string) :
  tuple_lt a b = false -> tuple_lt b c = false -> tuple_lt a c = false.
Proof.
  rewrite !tuple_lt_false_iff. intros [H1 H2] [H3 H4]. split; [lia|].
  intros Heq. apply (str_lt_negtrans _ (snd b)); [apply H2|apply H4]; lia.
Qed.

Lemma tuple_le_antisym (a b : Z * string) :
  tuple_lt a b = false -> tuple_lt b a = false -> a = b.
Proof.
  rewrite !tuple_lt_false_iff. intros [H1 H2] [H3 H4].
  assert (Hfst : fst a = fst b) by lia.
  destruct a as [a1 a2], b as [b1 b2]. simpl in *. subst b1. f_equal.
  specialize (H2 eq_refl). specialize (H4 eq_refl).
  destruct (str_lt_total a2 b2) as [H|[H|H]]; congruence.
Qed.

(* ------------------------------------------------------------------ *)
(** * Scoring: [get_wins] and [get_winner]                              *)
(* ------------------------------------------------------------------ *)

Lemma dict_add_nonempty (d : dict Z) (k : string) (n : Z) : dict_add d k n <> [].
Proof.
  intros H. assert (Hget : dict_get (dict_add d k n) k = None) by (rewrite H; reflexivity).
  rewrite dict_get_add, String.eqb_refl in Hget. discriminate.
Qed.

Lemma get_wins_from_facts (gs : list GameRow.t) :
  forall wins wins' : dict Z,
    get_wins_from wins gs = Returned wins' ->
    (NoDup (dict_keys wins) -> NoDup (dict_keys wins'))
    /\ (wins <> [] \/ gs <> [] -> wins' <> []).
Proof.
  induction gs as [|g gs IH]; intros wins wins' H.
  - inversion H; subst. split; [auto|]. intros [Hw|Hg]; congruence.
  - simpl in H. destruct (first (GameRow.scoreboard g)) as [winner|e];
      [|discriminate].
    simpl in H. destruct (IH _ _ H) as [Hnd Hne]. split.
    + intros Hw. apply Hnd. apply dict_add_NoDup. exact Hw.
    + intros _. apply Hne. left. apply dict_add_nonempty.
Qed.

(** [get_wins] returns exactly when every scoreboard has a first name. *)
Lemma get_wins_from_returns (gs : list GameRow.t) :
  forall wins : dict Z,
    (exists wins', get_wins_from wins gs = Returned wins')
    <-> Forall (fun g => GameRow.scoreboard g <> []) gs.
Proof.
  induction gs as [|g gs IH]; intros wins; simpl.
  - split; [constructor|]. intros _. exists wins. reflexivity.
  - destruct (GameRow.scoreboard g) as [|winner rest] eqn:Hsb; simpl.
    + split.
      * intros [wins' H]. discriminate.
      * intros H. inversion H; subst. congruence.
    + rewrite IH. split.
      * intros H. constructor; [rewrite Hsb; discriminate|assumption].
      * intros H. inversion H; assumption.
Qed.

Lemma win_pairs_In (wins : dict Z) (v : Z) (k : string) :
  NoDup (dict_keys wins) ->
  (In (v, k) (win_pairs wins) <-> dict_get wins k = Some v).
Proof.
  intros Hnd. rewrite <- (dict_get_In wins k v Hnd).
  unfold win_pairs. rewrite in_map_iff. split.
  - intros [[k0 v0] [Heq Hin]]. simpl in Heq. inversion Heq; subst. exact Hin.
  - intros Hin. exists (k, v). auto.
Qed.

(** C5. For every non-empty list of games, [get_winner] gives what
    sorting the [(win_count, player_name)] pairs of [get_wins] in
    ascending order and taking the name of the last pair gives.  When
    [get_wins] returns a tally, [get_winner] returns the name in the last
    pair of that tally sorted in ascending order, whichever way the
    sorting is done: no player has more wins, and among the players with
    as many wins none has a greater name.  When [get_wins] raises (a
    scoreboard is empty), [get_winner] raises the same exception.  Over the
    games A-B, B-A, A-B it returns A. *)
Theorem get_winner_is_last_of_sorted_tally :
  (forall gs : list GameRow.t,
      gs <> [] ->
      match get_wins gs with
      | Returned wins =>
          exists (c : Z) (name : string),
            get_winner gs = Returned name
            /\ dict_get wins name = Some c
            /\ (forall l : list (Z * string),
                  Permutation l (win_pairs wins) -> StronglySorted tuple_le l ->
                  last_item l = Returned (c, name))
            /\ (forall (k : string) (v : Z),
                  dict_get wins k = Some v ->
                  v < c \/ (v = c /\ (k = name \/ str_lt k name = true)))
      | Raised e => get_winner gs = Raised e
      end)
  /\ get_winner [game ["A"; "B"]; game ["B"; "A"]; game ["A"; "B"]]
     = Returned "A".
Proof.
  split; [|reflexivity].
  intros gs Hne.
  destruct (get_wins gs) as [wins|e] eqn:Hwins;
    [|unfold get_winner; rewrite Hwins; reflexivity].
  destruct (get_wins_from_facts gs [] wins Hwins) as [Hnd Hnonempty].
  specialize (Hnd (NoDup_nil _)). specialize (Hnonempty (or_intror Hne)).
  pose (sr := sorted tuple_lt (win_pairs wins)).
  assert (Hperm : Permutation sr (win_pairs wins)) by apply sorted_perm.
  assert (Hsorted : StronglySorted tuple_le sr).
  { apply sorted_sorted; [exact tuple_lt_asym|exact tuple_lt_negtrans]. }
  assert (Hpairs : win_pairs wins <> []).
  { destruct wins; [congruence|discriminate]. }
  destruct (last_item_returns sr) as [[c name] Htop].
  { intros Hnil. rewrite Hnil in Hperm. apply Permutation_nil in Hperm.
    contradiction. }
  destruct (last_item_greatest tuple_lt sr (c, name) Hsorted Htop) as [Hin Hmax].
  assert (Hin' : In (c, name) (win_pairs wins))
    by (eapply Permutation_in; eassumption).
  exists c, name. split; [|split; [|split]].
  - unfold get_winner. rewrite Hwins. cbn [obind].
    fold (win_pairs wins). fold sr. rewrite Htop. reflexivity.
  - apply (win_pairs_In wins c name Hnd). exact Hin'.
  - intros l Hl Hls.
    destruct (last_item_returns l) as [top Hltop].
    { intros Hnil. rewrite Hnil in Hl.
      apply Permutation_nil in Hl. contradiction. }
    destruct (last_item_greatest tuple_lt l top Hls Hltop) as [Hlin Hlmax].
    rewrite Hltop. f_equal.
    assert (H1 : In top sr).
    { eapply Permutation_in; [|exact Hlin].
      rewrite Hl. symmetry. exact Hperm. }
    assert (H2 : In (c, name) l).
    { eapply Permutation_in; [|exact Hin']. symmetry. exact Hl. }
    destruct (Hmax top H1) as [E|L1]; [exact E|].
    destruct (Hlmax (c, name) H2) as [E|L2]; [symmetry; exact E|].
    apply tuple_le_antisym; assumption.
  - intros k v Hget.
    apply (win_pairs_In wins v k Hnd) in Hget.
    assert (Hsr : In (v, k) sr).
    { eapply Permutation_in; [|exact Hget]. symmetry. exact Hperm. }
    destruct (Hmax (v, k) Hsr) as [E|L].
    + inversion E; subst. right. auto.
    + apply tuple_lt_false_iff in L. simpl in L. destruct L as [L1 L2].
      destruct (Z.eq_dec c v) as [e|ne]; [|left; lia].
      right. split; [symmetry; exact e|].
      specialize (L2 e). destruct (str_lt_total k name) as [H|[H|H]]; auto.
      congruence.
Qed.

(* ------------------------------------------------------------------ *)
(** * Scoring: [pretty_print]                                           *)
(* ------------------------------------------------------------------ *)

Lemma summarize_scoreboard_NoDup (sb : list string) :
  forall (start N : Z) (st : Stats),
    NoDup (dict_keys (player_games st)) ->
    NoDup (dict_keys (player_games
      (fold_left
         (fun st (item : Z * string) =>
            let (n, name) := item in
            MkStats (dict_add (player_points st) name (N - n))
                    (dict_add (player_games st) name 1))
         (enumerate sb start) st))).
Proof.
  induction sb as [|x sb IH]; intros start N st Hnd; [exact Hnd|].
  cbn [enumerate fold_left]. apply IH. simpl. apply dict_add_NoDup. exact Hnd.
Qed.

Lemma summarize_NoDup (gs : list GameRow.t) :
  NoDup (dict_keys (player_games (summarize gs))).
Proof.
  unfold summarize.
  assert (H : forall st, NoDup (dict_keys (player_games st)) ->
            NoDup (dict_keys (player_games
              (fold_left (fun st result =>
                            summarize_scoreboard st (GameRow.scoreboard result))
                         gs st)))).
  { induction gs as [|g gs IH]; intros st Hst; [exact Hst|].
    cbn [fold_left]. apply IH. unfold summarize_scoreboard.
    apply summarize_scoreboard_NoDup. exact Hst. }
  apply H. constructor.
Qed.

Lemma appearances_In (name : string) (sb : list string) :
  appearances name sb <> 0 <-> In name sb.
Proof.
  unfold appearances. rewrite (count_occ_In string_dec). lia.
Qed.

Lemma total_appearances_played (name : string) (gs : list GameRow.t) :
  total_appearances name gs <> 0 <-> played name gs.
Proof.
  unfold played. induction gs as [|g gs IH].
  - simpl. split; [congruence|]. intros [g [[] _]].
  - change (total_appearances name (g :: gs))
      with (appearances name (GameRow.scoreboard g) + total_appearances name gs).
    pose proof (appearances_nonneg name (GameRow.scoreboard g)) as H1.
    pose proof (total_appearances_nonneg name gs) as H2.
    split.
    + intros H.
      destruct (Z.eq_dec (appearances name (GameRow.scoreboard g)) 0) as [e|ne].
      * assert (Hrest : total_appearances name gs <> 0) by lia.
        apply IH in Hrest. destruct Hrest as [g' [Hin Hn]].
        exists g'. split; [right; exact Hin|exact Hn].
      * exists g. split; [left; reflexivity|]. apply appearances_In. exact ne.
    + intros [g' [[Hg|Hg] Hn]].
      * subst g'. apply appearances_In in Hn. lia.
      * assert (Hrest : total_appearances name gs <> 0)
          by (apply IH; exists g'; auto).
        lia.
Qed.

Lemma points_per_game_loop_returns (stats : Stats) (names : list string) :
  (forall name, In name names ->
     exists p g, dict_get (player_points stats) name = Some p
                 /\ dict_get (player_games stats) name = Some g /\ g <> 0) ->
  points_per_game_loop stats names
  = Returned (map (fun name =>
                     (name, int_truediv (val (dict_get (player_points stats) name))
                                        (val (dict_get (player_games stats) name))))
                  names).
Proof.
  induction names as [|name names IH]; intros H; [reflexivity|].
  cbn [points_per_game_loop map].
  destruct (H name (or_introl eq_refl)) as (p & g & Hp & Hg & Hg0).
  rewrite Hp, Hg. apply Z.eqb_neq in Hg0. rewrite Hg0.
  rewrite IH by (intros; apply H; right; assumption).
  reflexivity.
Qed.

(** C10. For the tallies [summarize] produces, the list that
    [pretty_print] builds and sorts is there (no division fails), has
    exactly one pair for each player who played at least one game, pairs
    each such player with the quotient of their points by their games,
    and is in descending order of that quotient.  The order on floats is
    taken to be asymmetric and to have a transitive [>=], as it is on
    floats that are numbers. *)
Theorem points_per_game_descending_averages :
  forall gs : list GameRow.t,
    (forall a b, float_lt a b = true -> float_lt b a = false) ->
    (forall a b c, float_lt a b = false -> float_lt b c = false ->
                   float_lt a c = false) ->
    let stats := summarize gs in
    exists l : list (string * pyfloat),
      points_per_game stats = Returned l
      /\ Permutation (map fst l) (dict_keys (player_games stats))
      /\ NoDup (map fst l)
      /\ (forall name, In name (map fst l) <-> played name gs)
      /\ (forall name avg,
            In (name, avg) l ->
            exists p g,
              dict_get (player_points stats) name = Some p
              /\ dict_get (player_games stats) name = Some g
              /\ 1 <= g
              /\ avg = int_truediv p g)
      /\ StronglySorted (fun x y => float_lt (snd x) (snd y) = false) l.
Proof.
  intros gs Hasym Hneg stats.
  pose (F := fun name =>
               (name, int_truediv (val (dict_get (player_points stats) name))
                                  (val (dict_get (player_games stats) name)))).
  pose (keys := dict_keys (player_games stats)).
  assert (Hkeys : forall name, In name keys ->
            exists p g, dict_get (player_points stats) name = Some p
                        /\ dict_get (player_games stats) name = Some g
                        /\ 1 <= g).
  { intros name Hin. unfold keys in Hin. apply dict_keys_get in Hin.
    destruct (summarize_get name gs) as [Hp Hg]. fold stats in Hp, Hg.
    pose proof (total_appearances_nonneg name gs) as Hnn.
    destruct (Z.eqb_spec (total_appearances name gs) 0) as [e|ne];
      [congruence|].
    eexists; eexists. repeat split; [exact Hp|exact Hg|lia]. }
  assert (Hloop : points_per_game_loop stats keys = Returned (map F keys)).
  { apply points_per_game_loop_returns. intros name Hin.
    destruct (Hkeys name Hin) as (p & g & Hp & Hg & Hg1).
    exists p, g. repeat split; [assumption|assumption|lia]. }
  pose (before := fun y x : string * pyfloat => float_lt (snd x) (snd y)).
  exists (sorted before (map F keys)).
  assert (Hperm : Permutation (sorted before (map F keys)) (map F keys))
    by apply sorted_perm.
  assert (Hfst : Permutation (map fst (sorted before (map F keys))) keys).
  { rewrite Hperm, map_map. unfold F. simpl. rewrite map_id. reflexivity. }
  split; [|split; [|split; [|split; [|split]]]].
  - unfold points_per_game. fold keys. rewrite Hloop. reflexivity.
  - exact Hfst.
  - apply (Permutation_NoDup (Permutation_sym Hfst)). apply summarize_NoDup.
  - intros name. rewrite <- total_appearances_played. split.
    + intros Hin. apply (Permutation_in _ Hfst) in Hin.
      destruct (Hkeys name Hin) as (p & g & Hp & Hg & Hg1).
      destruct (summarize_get name gs) as [_ Hg']. fold stats in Hg'.
      intros Hz. rewrite Hz in Hg'. simpl in Hg'. congruence.
    + intros Hne. apply (Permutation_in _ (Permutation_sym Hfst)).
      unfold keys. apply dict_keys_get.
      destruct (summarize_get name gs) as [_ Hg']. fold stats in Hg'.
      apply Z.eqb_neq in Hne. rewrite Hne in Hg'. congruence.
  - intros name avg Hin. apply (Permutation_in _ Hperm) in Hin.
    apply in_map_iff in Hin. destruct Hin as (name' & Heq & Hin).
    unfold F in Heq. inversion Heq; subst.
    destruct (Hkeys name Hin) as (p & g & Hp & Hg & Hg1).
    exists p, g. rewrite Hp, Hg. simpl. auto.
  - apply (sorted_sorted before).
    + intros a b. unfold before. apply Hasym.
    + intros a b c. unfold before. intros H1 H2. exact (Hneg _ _ _ H2 H1).
Qed.


(* ------------------------------------------------------------------ *)
(** * Further properties of the scoring functions                       *)
(* ------------------------------------------------------------------ *)

Lemma first_places_nonneg (name : string) (gs : list GameRow.t) :
  0 <= first_places name gs.
Proof. unfold first_places. lia. Qed.

Lemma first_places_cons (name : string) (g : GameRow.t) (gs : list GameRow.t) :
  first_places name (g :: gs)
  = (if won_by name g then 1 else 0) + first_places name gs.
Proof.
  unfold first_places. cbn [filter].
  destruct (won_by name g); cbn [List.length]; lia.
Qed.

Lemma first_places_perm (name : string) (gs gs' : list GameRow.t) :
  Permutation gs gs' -> first_places name gs = first_places name gs'.
Proof.
  induction 1 as [|g l l' _ IH|g g' l|l l' l'' _ IH1 _ IH2].
  - reflexivity.
  - rewrite !first_places_cons, IH. reflexivity.
  - rewrite !first_places_cons. lia.
  - congruence.
Qed.

(** The loop of [get_wins], from the tally so far. *)
Lemma get_wins_from_get (k : string) (gs : list GameRow.t) :
  forall wins wins' : dict Z,
    get_wins_from wins gs = Returned wins' ->
    dict_get wins' k
    = credit (dict_get wins k) (first_places k gs) (first_places k gs).
Proof.
  induction gs as [|g gs IH]; intros wins wins' H.
  - inversion H; subst. reflexivity.
  - rewrite first_places_cons. unfold won_by. simpl in H.
    destruct (GameRow.scoreboard g) as [|x rest]; [discriminate|].
    simpl in H. rewrite (IH _ _ H), dict_get_add.
    pose proof (first_places_nonneg k gs) as Hnn.
    rewrite (String.eqb_sym k x).
    destruct (String.eqb x k) eqn:Hx.
    + apply String.eqb_eq in Hx. subst x.
      replace (Some (val (dict_get wins k) + 1))
        with (credit (dict_get wins k) 1 1) by reflexivity.
      rewrite credit_credit by lia. reflexivity.
    + reflexivity.
Qed.

Lemma get_wins_get (k : string) (gs : list GameRow.t) (wins : dict Z) :
  get_wins gs = Returned wins ->
  dict_get wins k
  = if first_places k gs =? 0 then None else Some (first_places k gs).
Proof.
  intros H. rewrite (get_wins_from_get k gs [] wins H).
  unfold credit. simpl. reflexivity.
Qed.

(** [get_wins] raises nothing but [IndexError], and does so exactly when
    a scoreboard is empty. *)
Lemma get_wins_from_outcome (gs : list GameRow.t) :
  forall wins : dict Z,
    match get_wins_from wins gs with
    | Returned _ => Forall (fun g => ~ no_names g) gs
    | Raised e => e = IndexError /\ Exists no_names gs
    end.
Proof.
  induction gs as [|g gs IH]; intros wins; simpl.
  - constructor.
  - destruct (GameRow.scoreboard g) as [|x rest] eqn:Hsb; simpl.
    + split; [reflexivity|]. left. exact Hsb.
    + specialize (IH (dict_add wins x 1)).
      destruct (get_wins_from (dict_add wins x 1) gs) as [w|e].
      * constructor; [unfold no_names; rewrite Hsb; discriminate|exact IH].
      * destruct IH as [He Hex]. split; [exact He|right; exact Hex].
Qed.

Lemma Forall_not_Exists {A} (P : A -> Prop) (l : list A) :
  Forall (fun x => ~ P x) l -> Exists P l -> False.
Proof.
  intros HF HE. induction HE as [x l Hx|x l _ IH];
    inversion HF; subst; auto.
Qed.

(** The winner, when the tally is there: a name of the tally whose pair
    is above every other pair. *)
Lemma get_winner_top (gs : list GameRow.t) (wins : dict Z) :
  gs <> [] -> get_wins gs = Returned wins ->
  exists (c : Z) (name : string),
    get_winner gs = Returned name
    /\ dict_get wins name = Some c
    /\ forall (k : string) (v : Z),
         dict_get wins k = Some v -> tuple_lt (c, name) (v, k) = false.
Proof.
  intros Hne Hwins.
  destruct (get_wins_from_facts gs [] wins Hwins) as [Hnd Hnonempty].
  specialize (Hnd (NoDup_nil _)). specialize (Hnonempty (or_intror Hne)).
  pose (sr := sorted tuple_lt (win_pairs wins)).
  assert (Hperm : Permutation sr (win_pairs wins)) by apply sorted_perm.
  assert (Hsorted : StronglySorted (not_after tuple_lt) sr).
  { apply sorted_sorted; [exact tuple_lt_asym|exact tuple_lt_negtrans]. }
  destruct (last_item_returns sr) as [[c name] Htop].
  { intros Hnil. rewrite Hnil in Hperm. apply Permutation_nil in Hperm.
    destruct wins; [congruence|discriminate]. }
  destruct (last_item_greatest tuple_lt sr (c, name) Hsorted Htop) as [Hin Hmax].
  exists c, name. split; [|split].
  - unfold get_winner. rewrite Hwins. cbn [obind].
    fold (win_pairs wins). fold sr. rewrite Htop. reflexivity.
  - apply (win_pairs_In wins c name Hnd). eapply Permutation_in; eassumption.
  - intros k v Hget. apply (win_pairs_In wins v k Hnd) in Hget.
    assert (Hsr : In (v, k) sr).
    { eapply Permutation_in; [|exact Hget]. symmetry. exact Hperm. }
    destruct (Hmax (v, k) Hsr) as [E|L].
    + inversion E; subst. apply tuple_lt_false_iff. simpl. split; [lia|].
      intros _. apply str_lt_irrefl.
    + exact L.
Qed.

(** X1. The tally holds, for each player, the number of games that player
    won, and holds no player who won none. *)
Theorem get_wins_counts_first_places :
  forall (gs : list GameRow.t) (wins : dict Z),
    get_wins gs = Returned wins ->
    NoDup (dict_keys wins)
    /\ forall name : string,
         dict_get wins name
         = if first_places name gs =? 0 then None
           else Some (first_places name gs).
Proof.
  intros gs wins H. split.
  - apply (proj1 (get_wins_from_facts gs [] wins H)). constructor.
  - intros name. apply get_wins_get. exact H.
Qed.

(** X2. [get_wins] returns when every scoreboard has a name, also for no
    game at all, and raises [IndexError], nothing else, when one has
    none. *)
Theorem get_wins_raises_on_empty_scoreboard :
  forall gs : list GameRow.t,
    (Forall (fun g => ~ no_names g) gs ->
     exists wins, get_wins gs = Returned wins)
    /\ (Exists no_names gs -> get_wins gs = Raised IndexError).
Proof.
  intros gs. pose proof (get_wins_from_outcome gs []) as H.
  unfold get_wins. destruct (get_wins_from [] gs) as [wins|e].
  - split; [intros _; exists wins; reflexivity|].
    intros Hex. exfalso. exact (Forall_not_Exists _ _ H Hex).
  - destruct H as [He Hex]. subst e. split; [|reflexivity].
    intros HF. exfalso. exact (Forall_not_Exists _ _ HF Hex).
Qed.

(** X3. [get_winner] returns exactly on a non-empty list of games that all
    have a name on their scoreboard; what it returns is a player who won
    one of the games.  On every other list it raises [IndexError]. *)
Theorem get_winner_outcome :
  forall gs : list GameRow.t,
    match get_winner gs with
    | Returned name =>
        gs <> [] /\ Forall (fun g => ~ no_names g) gs
        /\ 1 <= first_places name gs
    | Raised e =>
        e = IndexError /\ (gs = [] \/ Exists no_names gs)
    end.
Proof.
  intros gs. pose proof (get_wins_from_outcome gs []) as Hout.
  fold (get_wins gs) in Hout.
  destruct (get_wins gs) as [wins|e] eqn:Hwins.
  - destruct gs as [|g gs'].
    + inversion Hwins; subst. simpl. auto.
    + destruct (get_winner_top (g :: gs') wins) as (c & name & Hw & Hc & _);
        [discriminate|exact Hwins|].
      rewrite Hw. split; [discriminate|]. split; [exact Hout|].
      rewrite (get_wins_get name _ _ Hwins) in Hc.
      pose proof (first_places_nonneg name (g :: gs')).
      destruct (Z.eqb_spec (first_places name (g :: gs')) 0); [discriminate|lia].
  - unfold get_winner. rewrite Hwins. simpl.
    destruct Hout as [He Hex]. auto.
Qed.

Lemma Exists_no_names_perm (gs gs' : list GameRow.t) :
  Permutation gs gs' -> Exists no_names gs -> Exists no_names gs'.
Proof.
  intros Hp. rewrite !Exists_exists. intros [g [Hin Hg]].
  exists g. split; [eapply Permutation_in; eassumption|exact Hg].
Qed.

(** X4. The winner does not depend on the order in which the games were
    logged. *)
Theorem get_winner_order_independent :
  forall gs gs' : list GameRow.t,
    Permutation gs gs' -> get_winner gs = get_winner gs'.
Proof.
  intros gs gs' Hp.
  pose proof (get_wins_from_outcome gs []) as H1.
  pose proof (get_wins_from_outcome gs' []) as H2.
  fold (get_wins gs) in H1. fold (get_wins gs') in H2.
  destruct (get_wins gs) as [wins|e] eqn:Hw;
    destruct (get_wins gs') as [wins'|e'] eqn:Hw'.
  - destruct gs as [|g l].
    + apply Permutation_nil in Hp. subst gs'. reflexivity.
    + assert (Hne' : gs' <> []).
      { intros ->. apply Permutation_sym, Permutation_nil in Hp. discriminate. }
      destruct (get_winner_top (g :: l) wins) as (c & name & Hr & Hc & Hmax);
        [discriminate|exact Hw|].
      destruct (get_winner_top gs' wins' Hne' Hw') as (c' & name' & Hr' & Hc' & Hmax').
      assert (Hsame : forall k, dict_get wins k = dict_get wins' k).
      { intros k. rewrite (get_wins_get k _ _ Hw), (get_wins_get k _ _ Hw').
        rewrite (first_places_perm k _ _ Hp). reflexivity. }
      rewrite Hr, Hr'. f_equal.
      assert (E : (c, name) = (c', name')).
      { apply tuple_le_antisym.
        - apply Hmax. rewrite Hsame. exact Hc'.
        - apply Hmax'. rewrite <- Hsame. exact Hc. }
      inversion E. reflexivity.
  - exfalso. destruct H2 as [_ Hex].
    exact (Forall_not_Exists _ _ H1
             (Exists_no_names_perm _ _ (Permutation_sym Hp) Hex)).
  - exfalso. destruct H1 as [_ Hex].
    exact (Forall_not_Exists _ _ H2 (Exists_no_names_perm _ _ Hp Hex)).
  - destruct H1 as [-> _], H2 as [-> _].
    unfold get_winner. rewrite Hw, Hw'. reflexivity.
Qed.


Lemma dict_total_set (d : dict Z) (k : string) (v : Z) :
  dict_total (dict_set d k v) = dict_total d - val (dict_get d k) + v.
Proof.
  induction d as [|[k0 v0] d IH]; simpl.
  - lia.
  - destruct (String.eqb k k0); simpl; [lia|]. rewrite IH. lia.
Qed.

Lemma dict_total_add (d : dict Z) (k : string) (n : Z) :
  dict_total (dict_add d k n) = dict_total d + n.
Proof.
  unfold dict_add, dict_mem.
  destruct (dict_get d k) as [v|] eqn:Hget.
  - rewrite Hget, dict_total_set, Hget. simpl. lia.
  - rewrite (dict_get_set d k k 0), String.eqb_refl.
    rewrite !dict_total_set, Hget, dict_get_set, String.eqb_refl. simpl. lia.
Qed.

Lemma dict_mem_keys {V} (d : dict V) (k : string) :
  dict_mem d k = true <-> In k (dict_keys d).
Proof.
  rewrite dict_keys_get. unfold dict_mem.
  destruct (dict_get d k); split; congruence.
Qed.

Lemma dict_mem_same_keys {V W} (d1 : dict V) (d2 : dict W) (k : string) :
  dict_keys d1 = dict_keys d2 -> dict_mem d1 k = dict_mem d2 k.
Proof.
  intros Hk. pose proof (dict_mem_keys d1 k) as H1.
  pose proof (dict_mem_keys d2 k) as H2. rewrite Hk in H1.
  destruct (dict_mem d1 k), (dict_mem d2 k); try reflexivity.
  - symmetry. apply H2, H1. reflexivity.
  - apply H1, H2. reflexivity.
Qed.

Lemma dict_keys_add (d : dict Z) (k : string) (n : Z) :
  dict_keys (dict_add d k n)
  = if dict_mem d k then dict_keys d else (dict_keys d ++ [k])%list.
Proof.
  unfold dict_add. destruct (dict_mem d k) eqn:Hmem.
  - destruct (dict_get d k); [|reflexivity].
    rewrite dict_keys_set, Hmem. reflexivity.
  - rewrite (dict_get_set d k k 0), String.eqb_refl.
    rewrite !dict_keys_set, Hmem.
    assert (Hm : dict_mem (dict_set d k 0) k = true).
    { unfold dict_mem. rewrite dict_get_set, String.eqb_refl. reflexivity. }
    rewrite Hm. reflexivity.
Qed.

(** What the inner loop of [summarize] adds to the totals and to the
    keys. *)
Lemma summarize_ranks_totals (N : Z) (sb : list string) :
  forall (start : Z) (st : Stats),
    let st' :=
      fold_left
        (fun st (item : Z * string) =>
           let (n, name) := item in
           MkStats (dict_add (player_points st) name (N - n))
                   (dict_add (player_games st) name 1))
        (enumerate sb start) st in
    let len := Z.of_nat (List.length sb) in
    dict_total (player_games st') = dict_total (player_games st) + len
    /\ 2 * dict_total (player_points st')
       = 2 * dict_total (player_points st) + len * (2 * N - 2 * start - len + 1)
    /\ (dict_keys (player_points st) = dict_keys (player_games st) ->
        dict_keys (player_points st') = dict_keys (player_games st')).
Proof.
  induction sb as [|x sb IH]; intros start st.
  - cbn. repeat split; auto; lia.
  - cbn [enumerate fold_left].
    destruct (IH (start + 1)
                (MkStats (dict_add (player_points st) x (N - start))
                         (dict_add (player_games st) x 1))) as (IHg & IHp & IHk).
    cbv zeta in IHg, IHp, IHk |- *.
    cbn [player_points player_games] in IHg, IHp, IHk.
    rewrite dict_total_add in IHg, IHp.
    cbn [List.length]. rewrite Nat2Z.inj_succ.
    split; [lia|]. split; [nia|].
    intros Hk. apply IHk. rewrite !dict_keys_add.
    rewrite (dict_mem_same_keys _ _ x Hk), Hk. reflexivity.
Qed.

Lemma summarize_from_totals (gs : list GameRow.t) :
  forall st : Stats,
    let st' := fold_left
                 (fun st result => summarize_scoreboard st (GameRow.scoreboard result))
                 gs st in
    dict_total (player_games st') = dict_total (player_games st) + names_logged gs
    /\ 2 * dict_total (player_points st')
       = 2 * dict_total (player_points st) + twice_points_awarded gs
    /\ (dict_keys (player_points st) = dict_keys (player_games st) ->
        dict_keys (player_points st') = dict_keys (player_games st')).
Proof.
  induction gs as [|g gs IH]; intros st.
  - cbn. repeat split; auto; lia.
  - cbn [fold_left names_logged twice_points_awarded fold_right].
    fold (names_logged gs). fold (twice_points_awarded gs).
    destruct (IH (summarize_scoreboard st (GameRow.scoreboard g)))
      as (IHg & IHp & IHk).
    destruct (summarize_ranks_totals
                (Z.of_nat (List.length (GameRow.scoreboard g)))
                (GameRow.scoreboard g) 1 st) as (Hg & Hp & Hk).
    fold (summarize_scoreboard st (GameRow.scoreboard g)) in Hg, Hp, Hk.
    cbv zeta in IHg, IHp, IHk, Hg, Hp, Hk |- *.
    split; [lia|]. split; [nia|]. auto.
Qed.

(** X5. [summarize] hands out fixed totals: the games counted over all
    players are the names on all the scoreboards, and the points given
    over all players are [N * (N - 1) / 2] for each scoreboard of [N]
    names, whoever the names are. *)
Theorem summarize_totals :
  forall gs : list GameRow.t,
    dict_total (player_games (summarize gs)) = names_logged gs
    /\ 2 * dict_total (player_points (summarize gs)) = twice_points_awarded gs.
Proof.
  intros gs. destruct (summarize_from_totals gs (MkStats [] [])) as (Hg & Hp & _).
  unfold summarize. cbv zeta in Hg, Hp. simpl in Hg, Hp. split; assumption.
Qed.

(** X6. The two tallies of [summarize] have the same players in the same
    order, without repetition: a player with games has points, so the
    float default of [pretty_print] is not used on them. *)
Theorem summarize_same_players :
  forall gs : list GameRow.t,
    dict_keys (player_points (summarize gs))
      = dict_keys (player_games (summarize gs))
    /\ NoDup (dict_keys (player_games (summarize gs))).
Proof.
  intros gs. split; [|apply summarize_NoDup].
  destruct (summarize_from_totals gs (MkStats [] [])) as (_ & _ & Hk).
  apply Hk. reflexivity.
Qed.

Lemma totals_perm (name : string) (gs gs' : list GameRow.t) :
  Permutation gs gs' ->
  total_points name gs = total_points name gs'
  /\ total_appearances name gs = total_appearances name gs'.
Proof.
  induction 1 as [|g l l' _ [IHp IHa]|g g' l|l l' l'' _ [IH1 IH1'] _ [IH2 IH2']];
    simpl; unfold total_points, total_appearances in *; simpl; split; lia.
Qed.

(** X7. What [summarize] holds for a player does not depend on the order
    in which the games were logged. *)
Theorem summarize_order_independent :
  forall (gs gs' : list GameRow.t) (name : string),
    Permutation gs gs' ->
    dict_get (player_points (summarize gs)) name
      = dict_get (player_points (summarize gs')) name
    /\ dict_get (player_games (summarize gs)) name
      = dict_get (player_games (summarize gs')) name.
Proof.
  intros gs gs' name Hp.
  destruct (summarize_get name gs) as [H1 H2].
  destruct (summarize_get name gs') as [H1' H2'].
  destruct (totals_perm name gs gs' Hp) as [Ep Ea].
  rewrite H1, H2, H1', H2', Ep, Ea. split; reflexivity.
Qed.

Lemma rank_points_bounds (name : string) (N : Z) (sb : list string) :
  forall start : Z,
    1 <= start -> start + Z.of_nat (List.length sb) <= N + 1 ->
    0 <= rank_points name N start sb <= (N - start) * appearances name sb.
Proof.
  induction sb as [|x sb IH]; intros start H1 H2.
  - simpl. unfold appearances. simpl. lia.
  - cbn [List.length] in H2. rewrite Nat2Z.inj_succ in H2.
    rewrite appearances_cons. cbn [rank_points].
    pose proof (appearances_nonneg name sb) as Hnn.
    specialize (IH (start + 1)). 
    destruct (String.eqb x name); nia.
Qed.

Lemma total_points_bounds (name : string) (M : Z) (gs : list GameRow.t) :
  (forall g, In g gs -> Z.of_nat (List.length (GameRow.scoreboard g)) <= M) ->
  0 <= total_points name gs <= (M - 1) * total_appearances name gs.
Proof.
  induction gs as [|g gs IH]; intros HM.
  - simpl. lia.
  - change (total_points name (g :: gs))
      with (game_points name (GameRow.scoreboard g) + total_points name gs).
    change (total_appearances name (g :: gs))
      with (appearances name (GameRow.scoreboard g) + total_appearances name gs).
    assert (IH' : 0 <= total_points name gs
                  <= (M - 1) * total_appearances name gs).
    { apply IH. intros g' Hg'. apply HM. right. exact Hg'. }
    pose proof (HM g (or_introl eq_refl)) as Hg.
    pose proof (appearances_nonneg name (GameRow.scoreboard g)) as Hnn.
    pose proof (rank_points_bounds name
                  (Z.of_nat (List.length (GameRow.scoreboard g)))
                  (GameRow.scoreboard g) 1) as Hb.
    fold (game_points name (GameRow.scoreboard g)) in Hb.
    assert (Hb' : 0 <= game_points name (GameRow.scoreboard g)
                  <= (Z.of_nat (List.length (GameRow.scoreboard g)) - 1)
                     * appearances name (GameRow.scoreboard g))
      by (apply Hb; lia).
    nia.
Qed.

(** X8. A player in the tallies of [summarize] has one game at least and
    points that are not negative; when no scoreboard has more than [M]
    names, the points are at most [M - 1] for each game played, so the
    average lies between 0 and [M - 1]. *)
Theorem summarize_points_bounds :
  forall (gs : list GameRow.t) (M : Z) (name : string) (p g : Z),
    (forall game, In game gs ->
                  Z.of_nat (List.length (GameRow.scoreboard game)) <= M) ->
    dict_get (player_points (summarize gs)) name = Some p ->
    dict_get (player_games (summarize gs)) name = Some g ->
    1 <= g /\ 0 <= p <= (M - 1) * g.
Proof.
  intros gs M name p g HM Hp Hg.
  destruct (summarize_get name gs) as [Hp' Hg'].
  rewrite Hp in Hp'. rewrite Hg in Hg'.
  pose proof (total_appearances_nonneg name gs) as Hnn.
  pose proof (total_points_bounds name M gs HM) as Hb.
  destruct (Z.eqb_spec (total_appearances name gs) 0); [discriminate|].
  inversion Hp'; inversion Hg'; subst. split; [lia|exact Hb].
Qed.


(* ------------------------------------------------------------------ *)
(** * Further properties of the session commands                        *)
(* ------------------------------------------------------------------ *)

(** Once [this_session] has run, running it again changes nothing. *)
Lemma this_session_again (w w0 : World) (s0 : Session.t) :
  this_session w = (Returned s0, w0) ->
  this_session w0 = (Returned s0, w0)
  /\ state_session w0 = Some s0
  /\ history w0 = history w /\ files w0 = files w.
Proof.
  intros Hts. destruct (state_session w) as [s|] eqn:Hs.
  - rewrite (this_session_open w s Hs) in Hts. inversion Hts; subst.
    split; [apply this_session_open; assumption|auto].
  - rewrite (this_session_closed w Hs) in Hts. inversion Hts; subst.
    split; [apply this_session_open; reflexivity|auto].
Qed.

Lemma on_this_session_after {A} (method : Session.t -> M (A * Session.t))
    (w w0 : World) (s0 : Session.t) :
  this_session w = (Returned s0, w0) ->
  on_this_session method w = on_this_session method w0.
Proof.
  intros Hts. destruct (this_session_again w w0 s0 Hts) as [Hopen _].
  unfold on_this_session. unfold bind at 1. rewrite Hts.
  symmetry. unfold bind at 1. rewrite Hopen. reflexivity.
Qed.

Lemma end_session_after_this_session (w w0 : World) (s0 : Session.t) :
  this_session w = (Returned s0, w0) -> end_session w = end_session w0.
Proof.
  intros Hts. unfold end_session. unfold bind at 1.
  rewrite (on_this_session_after Session_end w w0 s0 Hts). reflexivity.
Qed.

(** X11. [start_session] never raises and never touches the history or the
    files; it leaves a session open, and its message carries the start
    time of that session.  When none was open, the session is a new one
    with no game and no end time, stamped with the current time and a
    newly drawn identifier. *)
Theorem start_session_opens_a_session :
  forall w : World,
    exists (s : Session.t) (w' : World),
      start_session w
        = (Returned ("Session started at " ++ Session.start_time s), w')
      /\ state_session w' = Some s
      /\ history w' = history w
      /\ files w' = files w
      /\ (state_session w = None ->
          s = Session.Make (asctime (clock w)) (uuid4 (uuids w)) None 0
          /\ clock w' = S (clock w) /\ uuids w' = S (uuids w)).
Proof.
  intros w. unfold start_session, bind.
  destruct (state_session w) as [s|] eqn:Hs.
  - rewrite (this_session_open w s Hs). exists s, w.
    split; [reflexivity|]. split; [exact Hs|]. split; [reflexivity|].
    split; [reflexivity|]. discriminate.
  - rewrite (this_session_closed w Hs). eexists; eexists.
    split; [reflexivity|]. simpl. repeat split; reflexivity.
Qed.

(** X12. A session command in ASCII that is neither [start] nor [end]
    is answered with the corrective message and does nothing else than
    rewrite the file with the history as it is: no session is opened, the
    open session and the history are untouched, no time and no identifier
    is drawn. *)
Theorem manage_session_unknown_command :
  forall (form_text : string) (w : World),
    ascii_text form_text = true ->
    strip (lower form_text) <> "start" ->
    strip (lower form_text) <> "end" ->
    manage_session form_text w
    = (Returned (jsonify try_again),
       MkWorld (history w) (state_session w)
               (write_file (files w) DB_FILENAME (history_dump (history w)))
               (clock w) (uuids w)).
Proof.
  intros form_text w _ Hstart Hend. unfold manage_session.
  apply String.eqb_neq in Hstart. apply String.eqb_neq in Hend.
  rewrite Hstart, Hend. reflexivity.
Qed.

(** X13. The command [end] on an open session whose games give a winner:
    the answer names the end time, the session's game count and the
    winner; the session is closed (none is open afterwards), its row, with
    the end time and the game count, is the last of the closed sessions,
    the game rows are untouched, and the file holds the new history. *)
Theorem manage_session_end_closes_session :
  forall (form_text : string) (w : World) (s : Session.t) (winner : string),
    strip (lower form_text) = "end" ->
    state_session w = Some s ->
    get_winner (session_games (Session.session_id s) (games (history w)))
      = Returned winner ->
    let r := manage_session form_text w in
    fst r = Returned (jsonify (ended_message (asctime (clock w))
                                 (Session.game_count s) winner))
    /\ state_session (snd r) = None
    /\ games (history (snd r)) = games (history w)
    /\ sessions (history (snd r))
       = (sessions (history w)
          ++ [SessionRow.Make (Session.session_id s) (Session.start_time s)
                (Some (asctime (clock w))) (Session.game_count s)])%list
    /\ files (snd r) DB_FILENAME = Some (history_dump (history (snd r)))
    /\ clock (snd r) = S (clock w) /\ uuids (snd r) = uuids w.
Proof.
  intros form_text w s winner Hcmd Hs Hwin r.
  assert (Hrun : r =
            (Returned (jsonify (ended_message (asctime (clock w))
                                  (Session.game_count s) winner)),
             MkWorld (history (closed_at w s)) None
                     (write_file (files (closed_at w s)) DB_FILENAME
                        (history_dump (history (closed_at w s))))
                     (S (clock w)) (uuids w))).
  { unfold r, manage_session. rewrite Hcmd. simpl String.eqb.
    unfold bind at 1. rewrite (end_session_open w s Hs), Hwin. reflexivity. }
  rewrite Hrun. simpl. repeat split; reflexivity.
Qed.

(** X14. [end_session] with no session open opens one first: a row for a
    session without games is appended, the winner computation fails with
    [IndexError], and the session just made is left installed, with its
    end time set.  The identifier drawn is taken to be carried by no
    row. *)
Theorem end_session_without_session :
  forall w : World,
    state_session w = None ->
    session_games (uuid4 (uuids w)) (games (history w)) = [] ->
    let r := end_session w in
    fst r = Raised IndexError
    /\ state_session (snd r)
       = Some (Session.Make (asctime (clock w)) (uuid4 (uuids w))
                 (Some (asctime (S (clock w)))) 0)
    /\ sessions (history (snd r))
       = (sessions (history w)
          ++ [SessionRow.Make (uuid4 (uuids w)) (asctime (clock w))
                (Some (asctime (S (clock w)))) 0])%list
    /\ games (history (snd r)) = games (history w).
Proof.
  intros w Hnone Hfresh r. unfold r.
  rewrite (end_session_after_this_session w _ _ (this_session_closed w Hnone)).
  rewrite (end_session_open
             (MkWorld (history w) (Some (fresh_session w)) (files w)
                      (S (clock w)) (S (uuids w)))
             (fresh_session w) eq_refl).
  simpl. rewrite Hfresh. simpl. repeat split; reflexivity.
Qed.


(* ------------------------------------------------------------------ *)
(** * Further properties of the game-result command                     *)
(* ------------------------------------------------------------------ *)

Lemma summarize_player_entries (gs : list GameRow.t) (name : string) :
  In name (dict_keys (player_games (summarize gs))) ->
  exists p g,
    dict_get (player_points (summarize gs)) name = Some p
    /\ dict_get (player_games (summarize gs)) name = Some g /\ g <> 0.
Proof.
  intros Hin. apply dict_keys_get in Hin.
  destruct (summarize_get name gs) as [Hp Hg].
  destruct (Z.eqb_spec (total_appearances name gs) 0) as [e|ne];
    [congruence|].
  eexists; eexists. repeat split; [exact Hp|exact Hg|exact ne].
Qed.

(** [pretty_print] never fails on what [summarize] produces. *)
Lemma pretty_print_summarize_returns (gs : list GameRow.t) :
  exists points, pretty_print (summarize gs) = Returned points.
Proof.
  unfold pretty_print, points_per_game.
  rewrite (points_per_game_loop_returns (summarize gs) _
             (summarize_player_entries gs)).
  simpl. eexists. reflexivity.
Qed.

Lemma get_winner_raises_no_names (gs : list GameRow.t) :
  Exists no_names gs -> get_winner gs = Raised IndexError.
Proof.
  intros Hex. pose proof (get_wins_from_outcome gs []) as H.
  unfold get_winner, get_wins.
  destruct (get_wins_from [] gs) as [wins|e].
  - exfalso. exact (Forall_not_Exists _ _ H Hex).
  - destruct H as [-> _]. reflexivity.
Qed.

Lemma get_winner_returns (gs : list GameRow.t) :
  gs <> [] -> Forall (fun g => ~ no_names g) gs ->
  exists winner, get_winner gs = Returned winner.
Proof.
  intros Hne HF. pose proof (get_wins_from_outcome gs []) as H.
  fold (get_wins gs) in H. destruct (get_wins gs) as [wins|e] eqn:Hw.
  - destruct (get_winner_top gs wins Hne Hw) as (c & name & Hr & _).
    exists name. exact Hr.
  - exfalso. destruct H as [_ Hex]. exact (Forall_not_Exists _ _ HF Hex).
Qed.

(** The outcome of [log_result] on an open session. *)
Lemma log_result_open_outcome (w : World) (s : Session.t) (form_text : string) :
  state_session w = Some s ->
  let row := GameRow.Make (asctime (clock w)) (split form_text)
                          (Some (Session.session_id s)) in
  fst (log_result form_text w)
  = obind (first (split form_text)) (fun winner =>
    obind (get_wins (session_games (Session.session_id s)
                       (games (history w) ++ [row]))) (fun wins =>
    obind (pretty_print (summarize (games (history w) ++ [row]))) (fun points =>
    Returned (jsonify (got_it_message winner (tl (split form_text))
                         wins points))))).
Proof.
  intros Hs. destruct w as [h ss fs c u]. simpl in Hs. subst ss.
  cbv zeta. run_handler.
  destruct (first (split form_text)) as [winner|e0]; [|reflexivity].
  match goal with
  | |- context [this_sessions_games ?W] =>
      rewrite (this_sessions_games_open W
                 (Session.set_game_count s (Session.game_count s + 1)) eq_refl)
  end.
  cbv beta iota. unfold GameRecord.json.
  cbn [GameRecord.timestamp GameRecord.scoreboard GameRecord.session_id
       obind games history Session.session_id Session.set_game_count].
  match goal with
  | |- context [get_wins ?g] => destruct (get_wins g)
  end; [|reflexivity].
  cbv beta iota.
  match goal with
  | |- context [pretty_print ?g] => destruct (pretty_print g)
  end; reflexivity.
Qed.

Lemma session_games_snoc_same (sid ts : string) (sb : list string)
    (gs : list GameRow.t) :
  session_games sid (gs ++ [GameRow.Make ts sb (Some sid)])
  = (session_games sid gs ++ [GameRow.Make ts sb (Some sid)])%list.
Proof.
  rewrite session_games_app. simpl. rewrite String.eqb_refl. reflexivity.
Qed.

(** X15. Every submission in ASCII, well-formed or not, appends exactly
    one row to the games: the names of the text, stamped with the current
    time and tagged with the session [this_session] yields.  The session
    left installed is that session with a [game_count] one higher; the
    closed sessions are untouched and no row is changed. *)
Theorem log_result_appends_one_row :
  forall (w w0 : World) (s0 : Session.t) (form_text : string),
    ascii_text form_text = true ->
    this_session w = (Returned s0, w0) ->
    let w' := snd (log_result form_text w) in
    games (history w')
      = (games (history w)
         ++ [GameRow.Make (asctime (clock w0)) (split form_text)
               (Some (Session.session_id s0))])%list
    /\ sessions (history w') = sessions (history w)
    /\ state_session w'
       = Some (Session.Make (Session.start_time s0) (Session.session_id s0)
                            (Session.end_time s0) (Session.game_count s0 + 1))
    /\ (exists s1, state_session w' = Some s1
                   /\ Session.game_count s1 = Session.game_count s0 + 1)
    /\ clock w' = S (clock w0) /\ uuids w' = uuids w0.
Proof.
  intros w w0 s0 form_text _ Hts w'. unfold w'.
  rewrite (log_result_after_this_session w w0 s0 form_text Hts).
  destruct (this_session_again w w0 s0 Hts) as (_ & Hs0 & Hh & _).
  destruct (log_result_open w0 s0 form_text Hs0) as [Hw _].
  rewrite Hw. unfold logged. simpl. rewrite Hh.
  repeat split; try reflexivity.
  eexists. split; reflexivity.
Qed.

(** X16. When [log_result] answers and when it fails, on a text in
    ASCII.  It answers exactly
    when the text has a name and no earlier row of the session lacks one;
    the answer is the message built from the first name, the other names,
    the session's tally and the all-time table, both including the new
    row.  Otherwise it raises [IndexError]. *)
Theorem log_result_outcome :
  forall (w w0 : World) (s0 : Session.t) (form_text : string),
    ascii_text form_text = true ->
    this_session w = (Returned s0, w0) ->
    let sid := Session.session_id s0 in
    let earlier := session_games sid (games (history w)) in
    let row := GameRow.Make (asctime (clock w0)) (split form_text) (Some sid) in
    match fst (log_result form_text w) with
    | Returned r =>
        exists winner losers wins points,
          split form_text = winner :: losers
          /\ Forall (fun g => ~ no_names g) earlier
          /\ get_wins (earlier ++ [row]) = Returned wins
          /\ pretty_print (summarize (games (history w) ++ [row]))
             = Returned points
          /\ r = jsonify (got_it_message winner losers wins points)
    | Raised e =>
        e = IndexError /\ (split form_text = [] \/ Exists no_names earlier)
    end.
Proof.
  intros w w0 s0 form_text _ Hts sid earlier row.
  rewrite (log_result_after_this_session w w0 s0 form_text Hts).
  destruct (this_session_again w w0 s0 Hts) as (_ & Hs0 & Hh & _).
  rewrite (log_result_open_outcome w0 s0 form_text Hs0). cbv zeta.
  rewrite Hh, session_games_snoc_same. fold sid. fold earlier. fold row.
  destruct (split form_text) as [|winner losers] eqn:Hsplit.
  - simpl. auto.
  - cbn [first obind tl].
    pose proof (get_wins_from_outcome (earlier ++ [row]) []) as Hout.
    fold (get_wins (earlier ++ [row])) in Hout.
    destruct (get_wins (earlier ++ [row])) as [wins|e] eqn:Hw; cbn [obind].
    + destruct (pretty_print_summarize_returns (games (history w) ++ [row]))
        as [points Hpp].
      rewrite Hpp. cbn [obind].
      exists winner, losers, wins, points.
      apply Forall_app in Hout. destruct Hout as [Hearlier _]. auto.
    + destruct Hout as [He Hex]. split; [exact He|]. right.
      apply Exists_app in Hex. destruct Hex as [Hex|Hex]; [exact Hex|].
      inversion Hex as [? ? Hrow|? ? Hnil]; subst.
      * unfold no_names, row in Hrow. simpl in Hrow. discriminate.
      * inversion Hnil.
Qed.


(* ------------------------------------------------------------------ *)
(** * Properties of the two commands together                           *)
(* ------------------------------------------------------------------ *)

Lemma manage_session_start (form_text : string) (w : World) :
  strip (lower form_text) = "start" ->
  exists s0 w0,
    this_session w = (Returned s0, w0)
    /\ manage_session form_text w
       = (Returned (jsonify ("Session started at " ++ Session.start_time s0)),
          saved w0).
Proof.
  intros Hcmd. destruct (this_session_returns w) as (s0 & w0 & Hts & _).
  exists s0, w0. split; [exact Hts|].
  assert (Hstart : start_session w
            = (Returned ("Session started at " ++ Session.start_time s0), w0)).
  { unfold start_session, bind. rewrite Hts. reflexivity. }
  unfold manage_session. rewrite Hcmd. simpl String.eqb.
  unfold bind at 1. rewrite Hstart. reflexivity.
Qed.

Lemma manage_session_end (form_text : string) (w : World) :
  strip (lower form_text) = "end" ->
  manage_session form_text w
  = match end_session w with
    | (Returned msg, w1) => (Returned (jsonify msg), saved w1)
    | (Raised e, w1) => (Raised e, w1)
    end.
Proof.
  intros Hcmd. unfold manage_session. rewrite Hcmd. simpl String.eqb.
  unfold bind at 1. destruct (end_session w) as [[msg|e] w1]; reflexivity.
Qed.

Lemma manage_session_other (form_text : string) (w : World) :
  strip (lower form_text) <> "start" ->
  strip (lower form_text) <> "end" ->
  manage_session form_text w = (Returned (jsonify try_again), saved w).
Proof.
  intros Hstart Hend. unfold manage_session.
  apply String.eqb_neq in Hstart. apply String.eqb_neq in Hend.
  rewrite Hstart, Hend. reflexivity.
Qed.

(** The two worlds [end_session] can leave. *)
Lemma end_session_world (w : World) :
  exists s0 w0,
    this_session w = (Returned s0, w0)
    /\ ((exists e, end_session w = (Raised e, closed_at w0 s0))
        \/ (exists msg,
              end_session w
              = (Returned msg,
                 MkWorld (history (closed_at w0 s0)) None
                         (files (closed_at w0 s0)) (S (clock w0)) (uuids w0)))).
Proof.
  destruct (this_session_returns w) as (s0 & w0 & Hts & Hs0 & _).
  exists s0, w0. split; [exact Hts|].
  rewrite (end_session_after_this_session w w0 s0 Hts).
  rewrite (end_session_open w0 s0 Hs0).
  destruct (get_winner _) as [winner|e]; [right|left]; eexists; reflexivity.
Qed.

Lemma file_up_to_date_load (w : World) :
  file_up_to_date w ->
  load_history (files w) DB_FILENAME empty_history = Returned (history w).
Proof.
  unfold file_up_to_date, load_history. intros ->. apply history_update_dump.
Qed.

Lemma saved_up_to_date (w : World) : file_up_to_date (saved w).
Proof. reflexivity. Qed.

Lemma closed_at_up_to_date (w : World) (s : Session.t) :
  file_up_to_date (closed_at w s).
Proof. reflexivity. Qed.

(** X17. A session command, whatever its text, never touches the game
    rows and appends at most one row to the closed sessions; no earlier
    row is changed or removed.  A command in ASCII that is not [end]
    appends none. *)
Theorem manage_session_only_appends :
  forall (form_text : string) (w : World),
    let w' := snd (manage_session form_text w) in
    games (history w') = games (history w)
    /\ exists rows : list SessionRow.t,
         sessions (history w') = (sessions (history w) ++ rows)%list
         /\ (List.length rows <= 1)%nat
         /\ (ascii_text form_text = true ->
             strip (lower form_text) <> "end" -> rows = []).
Proof.
  intros form_text w w'. unfold w'.
  destruct (string_dec (strip (lower form_text)) "start") as [Hs|Hs].
  - destruct (manage_session_start form_text w Hs) as (s0 & w0 & Hts & Hrun).
    destruct (this_session_again w w0 s0 Hts) as (_ & _ & Hh & _).
    rewrite Hrun. simpl. rewrite Hh. split; [reflexivity|].
    exists []. rewrite app_nil_r. auto.
  - destruct (string_dec (strip (lower form_text)) "end") as [He|He].
    + rewrite (manage_session_end form_text w He).
      destruct (end_session_world w) as (s0 & w0 & Hts & Hend).
      destruct (this_session_again w w0 s0 Hts) as (_ & _ & Hh & _).
      destruct Hend as [[e Hend]|[msg Hend]]; rewrite Hend; simpl;
        rewrite Hh; (split; [reflexivity|]);
        eexists; (split; [reflexivity|]); (split; [simpl; lia|]);
        intros _ Hne; contradiction.
    + rewrite (manage_session_other form_text w Hs He). simpl.
      split; [reflexivity|]. exists []. rewrite app_nil_r. auto.
Qed.

(** X18. After every command, answered or failed, the file holds the
    history that is in memory: a process started afresh on the files
    loads exactly that history. *)
Theorem commands_keep_file_up_to_date :
  forall (form_text : string) (w : World),
    (let w' := snd (manage_session form_text w) in
     files w' DB_FILENAME = Some (history_dump (history w'))
     /\ load_history (files w') DB_FILENAME empty_history
        = Returned (history w'))
    /\ (let w' := snd (log_result form_text w) in
        files w' DB_FILENAME = Some (history_dump (history w'))
        /\ load_history (files w') DB_FILENAME empty_history
           = Returned (history w')).
Proof.
  intros form_text w.
  assert (Hm : file_up_to_date (snd (manage_session form_text w))).
  { destruct (string_dec (strip (lower form_text)) "start") as [Hs|Hs].
    - destruct (manage_session_start form_text w Hs) as (s0 & w0 & _ & Hrun).
      rewrite Hrun. apply saved_up_to_date.
    - destruct (string_dec (strip (lower form_text)) "end") as [He|He].
      + rewrite (manage_session_end form_text w He).
        destruct (end_session_world w) as (s0 & w0 & _ & Hend).
        destruct Hend as [[e Hend]|[msg Hend]]; rewrite Hend.
        * apply closed_at_up_to_date.
        * apply saved_up_to_date.
      + rewrite (manage_session_other form_text w Hs He).
        apply saved_up_to_date. }
  assert (Hl : file_up_to_date (snd (log_result form_text w))).
  { destruct (this_session_returns w) as (s0 & w0 & Hts & Hs0 & _).
    rewrite (log_result_after_this_session w w0 s0 form_text Hts).
    destruct (log_result_open w0 s0 form_text Hs0) as [Hw _].
    rewrite Hw. reflexivity. }
  split; (split; [assumption|apply file_up_to_date_load; assumption]).
Qed.

(** X19. A session that holds a row without names cannot recover: every
    game-result command raises [IndexError], whatever its text, and so
    does the session command [end]; after each of them, and after any
    other session command, the session is still open and still holds the
    row. *)
Theorem spoiled_session_stays_spoiled :
  forall (w : World) (sid form_text : string),
    spoiled w sid ->
    fst (log_result form_text w) = Raised IndexError
    /\ spoiled (snd (log_result form_text w)) sid
    /\ spoiled (snd (manage_session form_text w)) sid
    /\ (strip (lower form_text) = "end" ->
        fst (manage_session form_text w) = Raised IndexError).
Proof.
  intros w sid form_text (s & Hs & Hid & Hex). subst sid.
  pose proof (this_session_open w s Hs) as Hts.
  assert (Hend : end_session w = (Raised IndexError, closed_at w s)).
  { rewrite (end_session_open w s Hs), (get_winner_raises_no_names _ Hex).
    reflexivity. }
  assert (Hclosed : spoiled (closed_at w s) (Session.session_id s)).
  { eexists. split; [reflexivity|]. split; [reflexivity|exact Hex]. }
  split; [|split; [|split]].
  - rewrite (log_result_open_outcome w s form_text Hs). cbv zeta.
    destruct (first (split form_text)) as [winner|e] eqn:Hfirst.
    + cbn [obind]. rewrite session_games_snoc_same.
      assert (Hw : get_wins (session_games (Session.session_id s) (games (history w))
                             ++ [GameRow.Make (asctime (clock w)) (split form_text)
                                   (Some (Session.session_id s))])
                   = Raised IndexError).
      { pose proof (get_wins_from_outcome
                      (session_games (Session.session_id s) (games (history w))
                       ++ [GameRow.Make (asctime (clock w)) (split form_text)
                             (Some (Session.session_id s))]) []) as H.
        unfold get_wins. destruct (get_wins_from [] _) as [wins|e].
        - exfalso. apply Forall_app in H. destruct H as [H _].
          exact (Forall_not_Exists _ _ H Hex).
        - destruct H as [-> _]. reflexivity. }
      rewrite Hw. reflexivity.
    + destruct (split form_text); simpl in Hfirst; inversion Hfirst.
      reflexivity.
  - destruct (log_result_open w s form_text Hs) as [Hw _]. rewrite Hw.
    eexists. split; [reflexivity|]. split; [reflexivity|].
    simpl. rewrite session_games_app. apply Exists_app. left. exact Hex.
  - destruct (string_dec (strip (lower form_text)) "start") as [Hc|Hc].
    + destruct (manage_session_start form_text w Hc) as (s0 & w0 & Hts0 & Hrun).
      rewrite Hts in Hts0. inversion Hts0; subst. rewrite Hrun.
      exists s0. auto.
    + destruct (string_dec (strip (lower form_text)) "end") as [He|He].
      * rewrite (manage_session_end form_text w He), Hend. exact Hclosed.
      * rewrite (manage_session_other form_text w Hc He). exists s. auto.
  - intros He. rewrite (manage_session_end form_text w He), Hend. reflexivity.
Qed.

(** The world after a list of submissions on an open session. *)
Lemma log_results_open (texts : list string) :
  forall (w : World) (s : Session.t),
    state_session w = Some s ->
    let w' := log_results texts w in
    exists s',
      state_session w' = Some s'
      /\ Session.session_id s' = Session.session_id s
      /\ Session.start_time s' = Session.start_time s
      /\ Session.game_count s'
         = Session.game_count s + Z.of_nat (List.length texts)
      /\ games (history w')
         = (games (history w)
            ++ logged_rows (Session.session_id s) (clock w) texts)%list
      /\ sessions (history w') = sessions (history w)
      /\ clock w' = (clock w + List.length texts)%nat
      /\ uuids w' = uuids w.
Proof.
  induction texts as [|t rest IH]; intros w s Hs.
  - exists s. simpl. rewrite app_nil_r, Nat.add_0_r.
    repeat split; auto. lia.
  - cbn [log_results].
    destruct (log_result_open w s t Hs) as [Hw _].
    destruct (IH (snd (log_result t w))
                 (Session.set_game_count s (Session.game_count s + 1)))
      as (s' & H1 & H2 & H3 & H4 & H5 & H6 & H7 & H8).
    { rewrite Hw. reflexivity. }
    cbv zeta in H1, H2, H3, H4, H5, H6, H7, H8 |- *.
    rewrite Hw in H1, H5, H6, H7, H8 |- *.
    exists s'. simpl in H2, H3, H4, H5, H6, H7, H8.
    split; [exact H1|]. split; [exact H2|]. split; [exact H3|].
    cbn [List.length logged_rows]. rewrite Nat2Z.inj_succ.
    split; [lia|]. split; [rewrite H5, <- app_assoc; reflexivity|].
    split; [exact H6|]. split; [lia|exact H8].
Qed.

Lemma logged_rows_facts (sid : string) (texts : list string) :
  forall c : nat,
    session_games sid (logged_rows sid c texts) = logged_rows sid c texts
    /\ (Forall (fun t => split t <> []) texts ->
        Forall (fun g => ~ no_names g) (logged_rows sid c texts))
    /\ List.length (logged_rows sid c texts) = List.length texts.
Proof.
  induction texts as [|t rest IH]; intros c; simpl.
  - repeat split; constructor.
  - destruct (IH (S c)) as (H1 & H2 & H3).
    rewrite String.eqb_refl. fold (session_games sid (logged_rows sid (S c) rest)).
    rewrite H1, H3. repeat split.
    intros HF. inversion HF; subst. constructor; [assumption|auto].
Qed.

(** X20. A whole session: [start] with none open, then a non-empty list of
    submissions in ASCII that all have a name, then [end].  The end returns; its
    message gives the end time, the number of submissions and the winner
    over the rows just logged; afterwards no session is open, the closed
    sessions have one more row, with the times and the count, and the
    games have the logged rows.  The identifier drawn is taken to be
    carried by no earlier row. *)
Theorem session_from_start_to_end :
  forall (w : World) (texts : list string),
    state_session w = None ->
    session_games (uuid4 (uuids w)) (games (history w)) = [] ->
    texts <> [] ->
    Forall (fun t => ascii_text t = true) texts ->
    Forall (fun t => split t <> []) texts ->
    let w1 := log_results texts (snd (start_session w)) in
    let rows := logged_rows (uuid4 (uuids w)) (S (clock w)) texts in
    let n := Z.of_nat (List.length texts) in
    let end_time := asctime (S (clock w) + List.length texts) in
    exists winner : string,
      get_winner rows = Returned winner
      /\ fst (end_session w1) = Returned (ended_message end_time n winner)
      /\ state_session (snd (end_session w1)) = None
      /\ sessions (history (snd (end_session w1)))
         = (sessions (history w)
            ++ [SessionRow.Make (uuid4 (uuids w)) (asctime (clock w))
                  (Some end_time) n])%list
      /\ games (history (snd (end_session w1)))
         = (games (history w) ++ rows)%list.
Proof.
  intros w texts Hnone Hfresh Hne _ Hnames w1 rows n end_time.
  assert (Hstart : snd (start_session w)
            = MkWorld (history w) (Some (fresh_session w)) (files w)
                      (S (clock w)) (S (uuids w))).
  { unfold start_session, bind. rewrite (this_session_closed w Hnone).
    reflexivity. }
  destruct (log_results_open texts
              (MkWorld (history w) (Some (fresh_session w)) (files w)
                       (S (clock w)) (S (uuids w)))
              (fresh_session w) eq_refl)
    as (s' & H1 & H2 & H3 & H4 & H5 & H6 & H7 & H8).
  cbv zeta in H1, H2, H3, H4, H5, H6, H7, H8.
  assert (Hw1 : log_results texts
                  (MkWorld (history w) (Some (fresh_session w)) (files w)
                           (S (clock w)) (S (uuids w))) = w1)
    by (unfold w1; rewrite Hstart; reflexivity).
  rewrite Hw1 in H1, H5, H6, H7, H8.
  simpl in H2, H3, H4, H5, H6, H7. fold rows in H5.
  destruct (logged_rows_facts (uuid4 (uuids w)) texts (S (clock w)))
    as (Hf1 & Hf2 & Hf3).
  fold rows in Hf1, Hf2, Hf3.
  assert (Hrows : session_games (Session.session_id s') (games (history w1))
                  = rows).
  { rewrite H2, H5, session_games_app, Hfresh, Hf1. reflexivity. }
  destruct (get_winner_returns rows) as [winner Hwin].
  { intros Hnil. rewrite Hnil in Hf3. destruct texts; [congruence|discriminate]. }
  { exact (Hf2 Hnames). }
  exists winner. split; [exact Hwin|].
  rewrite (end_session_open w1 s' H1), Hrows, Hwin.
  unfold closed_at, ended_message, end_time, n.
  destruct s' as [st sid et gc]. simpl in H2, H3, H4 |- *.
  rewrite H7, H6, H5, H4, H3, H2.
  repeat split; reflexivity.
Qed.


(* ------------------------------------------------------------------ *)
(** * Further properties of [pretty_print] and of the session query    *)
(* ------------------------------------------------------------------ *)

Lemma points_per_game_loop_outcome (stats : Stats) (names : list string) :
  (forall name, In name names -> dict_get (player_games stats) name <> None) ->
  match points_per_game_loop stats names with
  | Returned l =>
      map fst l = names
      /\ Forall (fun name => dict_get (player_games stats) name <> Some 0) names
  | Raised e =>
      e = ZeroDivisionError
      /\ Exists (fun name => dict_get (player_games stats) name = Some 0) names
  end.
Proof.
  induction names as [|name names IH]; intros Hkeys.
  - simpl. split; [reflexivity|constructor].
  - cbn [points_per_game_loop].
    destruct (dict_get (player_games stats) name) as [g|] eqn:Hg.
    + destruct (Z.eqb_spec g 0) as [e|ne].
      * subst g. split; [reflexivity|]. left. exact Hg.
      * assert (Hrest : forall n, In n names ->
                          dict_get (player_games stats) n <> None)
          by (intros n Hn; apply Hkeys; right; exact Hn).
        specialize (IH Hrest).
        destruct (points_per_game_loop stats names) as [tl|e]; cbn [obind].
        -- destruct IH as [Hfst HF]. split; [simpl; rewrite Hfst; reflexivity|].
           constructor; [rewrite Hg; congruence|exact HF].
        -- destruct IH as [He Hex]. split; [exact He|right; exact Hex].
    + exfalso. apply (Hkeys name); [left; reflexivity|exact Hg].
Qed.

(** X9. [pretty_print] on any pair of tallies whose ints are in the
    range of floats: it returns exactly when no player has a game count of
    0, and raises [ZeroDivisionError], nothing else, when one has.  A
    player with games and no points makes no failure. *)
Theorem pretty_print_outcome :
  forall stats : Stats,
    (forall name v, dict_get (player_points stats) name = Some v -> fits_float v) ->
    (forall name v, dict_get (player_games stats) name = Some v -> fits_float v) ->
    match pretty_print stats with
    | Returned _ =>
        forall name, dict_get (player_games stats) name <> Some 0
    | Raised e =>
        e = ZeroDivisionError
        /\ exists name, dict_get (player_games stats) name = Some 0
    end.
Proof.
  intros stats _ _. unfold pretty_print, points_per_game.
  pose proof (points_per_game_loop_outcome stats
                (dict_keys (player_games stats))) as H.
  destruct (points_per_game_loop stats (dict_keys (player_games stats)))
    as [l|e]; cbn [obind].
  - destruct H as [_ HF]; [intros name Hin; apply dict_keys_get; exact Hin|].
    intros name Hzero. rewrite Forall_forall in HF.
    apply (HF name); [|exact Hzero].
    apply dict_keys_get. rewrite Hzero. discriminate.
  - destruct H as [He Hex]; [intros name Hin; apply dict_keys_get; exact Hin|].
    split; [exact He|]. apply Exists_exists in Hex.
    destruct Hex as [name [_ Hname]]. exists name. exact Hname.
Qed.

(** X10. With a session open, [this_sessions_games] changes nothing and
    returns, in the order of the log, the rows that carry the identifier
    of the open session: rows of other sessions and rows without a session
    are left out. *)
Theorem this_sessions_games_reads_session_rows :
  forall (w : World) (s : Session.t),
    state_session w = Some s ->
    exists rows : list GameRow.t,
      this_sessions_games w = (Returned rows, w)
      /\ rows = session_games (Session.session_id s) (games (history w))
      /\ forall row,
           In row rows
           <-> In row (games (history w))
               /\ GameRow.session_id row = Some (Session.session_id s).
Proof.
  intros w s Hs. eexists. split; [apply this_sessions_games_open; exact Hs|].
  split; [reflexivity|]. intros row. unfold session_games.
  rewrite filter_In. split.
  - intros [Hin Hid]. split; [exact Hin|].
    destruct (GameRow.session_id row) as [sid|]; [|discriminate].
    apply String.eqb_eq in Hid. subst. reflexivity.
  - intros [Hin Hid]. split; [exact Hin|].
    rewrite Hid. apply String.eqb_refl.
Qed.


End App.

(* ------------------------------------------------------------------ *)
(** * The properties in the concrete setting                            *)
(* ------------------------------------------------------------------ *)

Lemma demo_float_lt_asym (a b : Q) :
  demo_float_lt a b = true -> demo_float_lt b a = false.
Proof.
  unfold demo_float_lt. rewrite <- (Qcompare_antisym a b).
  destruct (Qcompare a b); simpl; congruence.
Qed.

Lemma demo_float_lt_false (a b : Q) :
  demo_float_lt a b = false <-> (b <= a)%Q.
Proof.
  unfold demo_float_lt. rewrite Qle_alt, <- (Qcompare_antisym a b).
  destruct (Qcompare a b); simpl; split; congruence.
Qed.

Lemma demo_float_lt_negtrans (a b c : Q) :
  demo_float_lt a b = false -> demo_float_lt b c = false ->
  demo_float_lt a c = false.
Proof.
  rewrite !demo_float_lt_false. intros H1 H2. exact (Qle_trans _ _ _ H2 H1).
Qed.

(** C1, where the program departs from it.  Session command [end]
    right after [start], with no game in between: the session row is
    closed and appended, but the handler raises [IndexError] instead of
    answering, and the session is still installed afterwards. *)
Theorem end_right_after_start_raises :
  let w1 := snd (manage_session demo_asctime demo_uuid4 "start" demo_world) in
  let r := manage_session demo_asctime demo_uuid4 "end" w1 in
  fst r = Raised IndexError
  /\ sessions (history (snd r))
     = [SessionRow.Make "uuid-0" "time-0" (Some "time-1") 0]
  /\ state_session (snd r)
     = Some (Session.Make "time-0" "uuid-0" (Some "time-1") 0).
Proof. vm_compute. repeat split. Qed.

(** C2, where the program departs from it.  A submission with an
    empty text is not turned down: a row with an empty scoreboard is
    appended and counted, the handler raises [IndexError] instead of
    answering, and the next, well-formed submission of the session raises
    as well. *)
Theorem log_result_empty_text_raises :
  let run := log_result demo_asctime demo_uuid4 Q demo_int_truediv
               demo_float_truediv 0%Q demo_float_lt demo_format_3f
               demo_dict_repr in
  let r := run "" started_world in
  fst r = Raised IndexError
  /\ games (history (snd r)) = [GameRow.Make "time-1" [] (Some "uuid-0")]
  /\ state_session (snd r) = Some (Session.Make "time-0" "uuid-0" None 1)
  /\ fst (run "A B" (snd r)) = Raised IndexError.
Proof. vm_compute. repeat split. Qed.

Lemma start_session_idempotent_witness :
  start_session demo_asctime demo_uuid4 started_world
    = (Returned "Session started at time-0", started_world)
  /\ fst (manage_session demo_asctime demo_uuid4 " Start " started_world)
     = Returned (jsonify "Session started at time-0")
  /\ state_session
       (snd (manage_session demo_asctime demo_uuid4 " Start " started_world))
     = Some demo_session.
Proof.
  destruct (start_session_idempotent demo_asctime demo_uuid4 started_world
              demo_session " Start " eq_refl) as [H1 H2].
  destruct (H2 eq_refl) as (H3 & H4 & _).
  split; [exact H1|]. split; [exact H3|exact H4].
Defined.

Lemma end_session_without_games_witness :
  fst (end_session demo_asctime demo_uuid4 started_world) = Raised IndexError
  /\ sessions (history (snd (end_session demo_asctime demo_uuid4 started_world)))
     = [SessionRow.Make "uuid-0" "time-0" (Some "time-1") 0]
  /\ state_session (snd (end_session demo_asctime demo_uuid4 started_world))
     = Some (Session.Make "time-0" "uuid-0" (Some "time-1") 0).
Proof.
  destruct (end_session_without_games_leaves_session_open
              demo_asctime demo_uuid4 started_world demo_session
              eq_refl eq_refl) as (H1 & H2 & _ & _ & H5 & _).
  split; [exact H1|]. split; [exact H2|exact H5].
Defined.

Lemma log_result_empty_scoreboard_witness :
  fst (log_result demo_asctime demo_uuid4 Q demo_int_truediv
         demo_float_truediv 0%Q demo_float_lt demo_format_3f demo_dict_repr
         "  " demo_world)
  = Raised IndexError
  /\ games (history (snd
       (log_result demo_asctime demo_uuid4 Q demo_int_truediv
          demo_float_truediv 0%Q demo_float_lt demo_format_3f demo_dict_repr
          "  " demo_world)))
     = [GameRow.Make "time-1" [] (Some "uuid-0")]
  /\ state_session (snd
       (log_result demo_asctime demo_uuid4 Q demo_int_truediv
          demo_float_truediv 0%Q demo_float_lt demo_format_3f demo_dict_repr
          "  " demo_world))
     = Some (Session.Make "time-0" "uuid-0" None 1).
Proof.
  destruct (log_result_empty_scoreboard_is_logged
              demo_asctime demo_uuid4 Q demo_int_truediv demo_float_truediv
              0%Q demo_float_lt demo_format_3f demo_dict_repr
              demo_world started_world demo_session "  " eq_refl eq_refl)
    as (H1 & H2 & _ & H4 & _).
  split; [exact H1|]. split; [exact H2|exact H4].
Defined.

Lemma game_count_counts_session_rows_witness :
  exists s',
    state_session
      (log_results demo_asctime demo_uuid4 Q demo_int_truediv
         demo_float_truediv 0%Q demo_float_lt demo_format_3f demo_dict_repr
         ["A B"; ""; "B A C"]
         (snd (start_session demo_asctime demo_uuid4 demo_world)))
    = Some s'
    /\ Session.game_count s' = 3.
Proof.
  destruct (game_count_counts_session_rows
              demo_asctime demo_uuid4 Q demo_int_truediv demo_float_truediv
              0%Q demo_float_lt demo_format_3f demo_dict_repr
              demo_world ["A B"; ""; "B A C"] eq_refl eq_refl)
    as (s' & H1 & _ & H3 & _).
  exists s'. split; [exact H1|exact H3].
Defined.

Lemma summarize_credits_ranks_witness :
  dict_get (player_points (summarize [GameRow.Make "t" ["A"; "B"; "C"] None])) "B"
  = Some 1.
Proof.
  assert (Hnd : NoDup ["A"; "B"; "C"]).
  { repeat constructor; simpl; intuition discriminate. }
  exact (proj1 (proj1 summarize_credits_ranks ["A"; "B"; "C"] 1%nat "B" "t" None
                  Hnd eq_refl)).
Defined.

Lemma get_winner_is_last_of_sorted_tally_witness :
  exists (c : Z) (name : string),
    get_winner [game ["A"; "B"]; game ["B"; "A"]; game ["B"; "C"]]
      = Returned name
    /\ dict_get [("A", 1); ("B", 2)] name = Some c.
Proof.
  assert (Hne : [game ["A"; "B"]; game ["B"; "A"]; game ["B"; "C"]] <> [])
    by discriminate.
  destruct (proj1 get_winner_is_last_of_sorted_tally
              [game ["A"; "B"]; game ["B"; "A"]; game ["B"; "C"]] Hne)
    as (c & name & H1 & H2 & _).
  exists c, name. split; [exact H1|exact H2].
Defined.

Lemma points_per_game_descending_averages_witness :
  exists l : list (string * Q),
    points_per_game Q demo_int_truediv demo_float_truediv 0%Q demo_float_lt
      (summarize [game ["A"; "B"; "C"]; game ["C"; "A"]])
    = Returned l
    /\ StronglySorted (fun x y => demo_float_lt (snd x) (snd y) = false) l.
Proof.
  destruct (points_per_game_descending_averages
              Q demo_int_truediv demo_float_truediv 0%Q demo_float_lt
              [game ["A"; "B"; "C"]; game ["C"; "A"]]
              demo_float_lt_asym demo_float_lt_negtrans)
    as (l & H1 & _ & _ & _ & _ & H6).
  exists l. split; [exact H1|exact H6].
Defined.


Lemma get_wins_counts_first_places_witness :
  dict_get [("A", 2); ("B", 1)] "A" = Some 2
  /\ dict_get [("A", 2); ("B", 1)] "C" = None.
Proof.
  destruct (get_wins_counts_first_places
              [game ["A"; "B"]; game ["B"; "A"]; game ["A"]]
              [("A", 2); ("B", 1)] eq_refl) as [_ H].
  split; [exact (H "A")|exact (H "C")].
Defined.

Lemma get_wins_raises_on_empty_scoreboard_witness :
  get_wins [game ["A"]; game []] = Raised IndexError.
Proof.
  apply (proj2 (get_wins_raises_on_empty_scoreboard [game ["A"]; game []])).
  right. left. reflexivity.
Defined.

Lemma get_winner_order_independent_witness :
  get_winner [game ["A"; "B"]; game ["B"; "A"]; game ["B"]]
  = get_winner [game ["B"; "A"]; game ["A"; "B"]; game ["B"]].
Proof.
  apply get_winner_order_independent. apply perm_swap.
Defined.

Lemma summarize_order_independent_witness :
  dict_get (player_points (summarize [game ["A"; "B"]; game ["B"; "C"; "A"]])) "B"
  = dict_get (player_points (summarize [game ["B"; "C"; "A"]; game ["A"; "B"]])) "B".
Proof.
  apply (summarize_order_independent
           [game ["A"; "B"]; game ["B"; "C"; "A"]]
           [game ["B"; "C"; "A"]; game ["A"; "B"]] "B").
  apply perm_swap.
Defined.

Lemma summarize_points_bounds_witness : 1 <= 1 /\ 0 <= 2 <= (3 - 1) * 1.
Proof.
  apply (summarize_points_bounds [game ["A"; "B"; "C"]] 3 "A" 2 1).
  - intros g [<-|[]]. simpl. lia.
  - reflexivity.
  - reflexivity.
Defined.

Lemma this_sessions_games_reads_session_rows_witness :
  exists rows : list GameRow.t,
    this_sessions_games demo_asctime demo_uuid4 played_world
    = (Returned rows, played_world)
    /\ rows = [GameRow.Make "time-1" ["A"; "B"] (Some "uuid-0")].
Proof.
  destruct (this_sessions_games_reads_session_rows demo_asctime demo_uuid4
              played_world (Session.Make "time-0" "uuid-0" None 1) eq_refl)
    as (rows & H1 & H2 & _).
  exists rows. split; [exact H1|exact H2].
Defined.

Lemma start_session_opens_a_session_witness :
  exists (s : Session.t) (w' : World),
    start_session demo_asctime demo_uuid4 demo_world
      = (Returned ("Session started at " ++ Session.start_time s), w')
    /\ s = Session.Make "time-0" "uuid-0" None 0.
Proof.
  destruct (start_session_opens_a_session demo_asctime demo_uuid4 demo_world)
    as (s & w' & H1 & _ & _ & _ & H5).
  exists s, w'. split; [exact H1|exact (proj1 (H5 eq_refl))].
Defined.

Lemma manage_session_unknown_command_witness :
  fst (manage_session demo_asctime demo_uuid4 " Pause " demo_world)
  = Returned (jsonify try_again)
  /\ state_session (snd (manage_session demo_asctime demo_uuid4 " Pause "
                           demo_world)) = None.
Proof.
  assert (H1 : strip (lower " Pause ") <> "start") by discriminate.
  assert (H2 : strip (lower " Pause ") <> "end") by discriminate.
  rewrite (manage_session_unknown_command demo_asctime demo_uuid4
             " Pause " demo_world eq_refl H1 H2).
  split; reflexivity.
Defined.

Lemma manage_session_end_closes_session_witness :
  fst (manage_session demo_asctime demo_uuid4 "END" played_world)
  = Returned (jsonify "Session ended at time-2 after 1 games. Winner is A!")
  /\ state_session (snd (manage_session demo_asctime demo_uuid4 "END"
                           played_world)) = None.
Proof.
  destruct (manage_session_end_closes_session demo_asctime demo_uuid4
              "END" played_world (Session.Make "time-0" "uuid-0" None 1) "A"
              eq_refl eq_refl eq_refl) as (H1 & H2 & _).
  split; [exact H1|exact H2].
Defined.

Lemma end_session_without_session_witness :
  fst (end_session demo_asctime demo_uuid4 demo_world) = Raised IndexError
  /\ state_session (snd (end_session demo_asctime demo_uuid4 demo_world))
     = Some (Session.Make "time-0" "uuid-0" (Some "time-1") 0).
Proof.
  destruct (end_session_without_session demo_asctime demo_uuid4 demo_world
              eq_refl eq_refl) as (H1 & H2 & _).
  split; [exact H1|exact H2].
Defined.

Lemma log_result_appends_one_row_witness :
  games (history (snd
    (log_result demo_asctime demo_uuid4 Q demo_int_truediv demo_float_truediv
       0%Q demo_float_lt demo_format_3f demo_dict_repr "B A" played_world)))
  = [GameRow.Make "time-1" ["A"; "B"] (Some "uuid-0");
     GameRow.Make "time-2" ["B"; "A"] (Some "uuid-0")]
  /\ state_session (snd
       (log_result demo_asctime demo_uuid4 Q demo_int_truediv demo_float_truediv
          0%Q demo_float_lt demo_format_3f demo_dict_repr "B A" played_world))
     = Some (Session.Make "time-0" "uuid-0" None 2).
Proof.
  destruct (log_result_appends_one_row
              demo_asctime demo_uuid4 Q demo_int_truediv demo_float_truediv
              0%Q demo_float_lt demo_format_3f demo_dict_repr
              played_world played_world
              (Session.Make "time-0" "uuid-0" None 1) "B A" eq_refl eq_refl)
    as (H1 & _ & H3 & _).
  split; [exact H1|exact H3].
Defined.

Lemma log_result_outcome_witness :
  exists winner losers wins points,
    split "B A" = winner :: losers
    /\ fst (log_result demo_asctime demo_uuid4 Q demo_int_truediv
              demo_float_truediv 0%Q demo_float_lt demo_format_3f
              demo_dict_repr "B A" played_world)
       = Returned (jsonify (got_it_message demo_dict_repr winner losers
                              wins points)).
Proof.
  pose proof (log_result_outcome
                demo_asctime demo_uuid4 Q demo_int_truediv demo_float_truediv
                0%Q demo_float_lt demo_format_3f demo_dict_repr
                played_world played_world
                (Session.Make "time-0" "uuid-0" None 1) "B A" eq_refl eq_refl)
    as H.
  cbv zeta in H.
  destruct (fst (log_result demo_asctime demo_uuid4 Q demo_int_truediv
                   demo_float_truediv 0%Q demo_float_lt demo_format_3f
                   demo_dict_repr "B A" played_world)) as [r|e] eqn:Hr.
  - destruct H as (winner & losers & wins & points & H1 & _ & _ & _ & H5).
    exists winner, losers, wins, points. split; [exact H1|].
    rewrite H5. reflexivity.
  - vm_compute in Hr. discriminate.
Defined.

Lemma manage_session_only_appends_witness :
  games (history (snd (manage_session demo_asctime demo_uuid4 "end"
                         played_world)))
  = [GameRow.Make "time-1" ["A"; "B"] (Some "uuid-0")].
Proof.
  exact (proj1 (manage_session_only_appends demo_asctime demo_uuid4
                  "end" played_world)).
Defined.

Lemma spoiled_session_stays_spoiled_witness :
  fst (log_result demo_asctime demo_uuid4 Q demo_int_truediv demo_float_truediv
         0%Q demo_float_lt demo_format_3f demo_dict_repr "A B" spoiled_world)
  = Raised IndexError
  /\ fst (manage_session demo_asctime demo_uuid4 "end" spoiled_world)
     = Raised IndexError.
Proof.
  assert (Hsp : spoiled spoiled_world "uuid-0").
  { exists (Session.Make "time-0" "uuid-0" None 1).
    split; [reflexivity|]. split; [reflexivity|]. left. reflexivity. }
  split.
  - exact (proj1 (spoiled_session_stays_spoiled
                    demo_asctime demo_uuid4 Q demo_int_truediv
                    demo_float_truediv 0%Q demo_float_lt demo_format_3f
                    demo_dict_repr spoiled_world "uuid-0" "A B" Hsp)).
  - destruct (spoiled_session_stays_spoiled
                demo_asctime demo_uuid4 Q demo_int_truediv
                demo_float_truediv 0%Q demo_float_lt demo_format_3f
                demo_dict_repr spoiled_world "uuid-0" "end" Hsp)
      as (_ & _ & _ & H). exact (H eq_refl).
Defined.

Lemma session_from_start_to_end_witness :
  exists winner : string,
    fst (end_session demo_asctime demo_uuid4
           (log_results demo_asctime demo_uuid4 Q demo_int_truediv
              demo_float_truediv 0%Q demo_float_lt demo_format_3f
              demo_dict_repr ["A B"; "B A"; "A C"]
              (snd (start_session demo_asctime demo_uuid4 demo_world))))
    = Returned (ended_message "time-4" 3 winner).
Proof.
  assert (Hne : ["A B"; "B A"; "A C"] <> []) by discriminate.
  assert (Hnames : Forall (fun t => split t <> []) ["A B"; "B A"; "A C"])
    by (repeat constructor; discriminate).
  assert (Hascii : Forall (fun t => ascii_text t = true) ["A B"; "B A"; "A C"])
    by (repeat constructor).
  destruct (session_from_start_to_end
              demo_asctime demo_uuid4 Q demo_int_truediv demo_float_truediv
              0%Q demo_float_lt demo_format_3f demo_dict_repr
              demo_world ["A B"; "B A"; "A C"] eq_refl eq_refl Hne Hascii
              Hnames)
    as (winner & _ & H2 & _).
  exists winner. exact H2.
Defined.

Lemma pretty_print_outcome_witness :
  pretty_print Q demo_int_truediv demo_float_truediv 0%Q demo_float_lt
    demo_format_3f (MkStats [("A", 3); ("B", 1)] [("A", 2); ("B", 0)])
  = Raised ZeroDivisionError.
Proof.
  assert (Hp : forall name v,
             dict_get [("A", 3); ("B", 1)] name = Some v -> fits_float v).
  { intros name v H. simpl in H.
    destruct (String.eqb name "A"); [inversion H; subst; reflexivity|].
    destruct (String.eqb name "B"); [inversion H; subst; reflexivity|].
    discriminate. }
  assert (Hg : forall name v,
             dict_get [("A", 2); ("B", 0)] name = Some v -> fits_float v).
  { intros name v H. simpl in H.
    destruct (String.eqb name "A"); [inversion H; subst; reflexivity|].
    destruct (String.eqb name "B"); [inversion H; subst; reflexivity|].
    discriminate. }
  pose proof (pretty_print_outcome Q demo_int_truediv demo_float_truediv 0%Q
                demo_float_lt demo_format_3f
                (MkStats [("A", 3); ("B", 1)] [("A", 2); ("B", 0)]) Hp Hg) as H.
  destruct (pretty_print Q demo_int_truediv demo_float_truediv 0%Q
              demo_float_lt demo_format_3f
              (MkStats [("A", 3); ("B", 1)] [("A", 2); ("B", 0)])) as [str|e].
  - exfalso. apply (H "B"). reflexivity.
  - destruct H as [He _]. rewrite He. reflexivity.
Defined.
